(** * officeAIServer: the translation gateway of [server.js]

    A shallow embedding of the Express route handlers
    [POST /api/translate/{gemini,claude,openai,deepseek}] and the
    properties their specification states.

    The repository holds two copies of the server: [src/server.js] (port
    3001: Gemini, Claude and OpenAI routes) and a second copy (port 3002)
    that adds the DeepSeek route.  The three routes the copies share are
    textually the same, so each handler is embedded once and the places of
    both copies are given. *)

From Stdlib Require Import String Ascii List Bool.
Import ListNotations.
Open Scope string_scope.

Set Implicit Arguments.

(** ** JavaScript values that reach the handlers

    [express.json()] puts the parsed JSON document in [req.body], and the
    vendor SDKs hand back parsed JSON envelopes.  A value read from such a
    document is a [json]; a property that is not there reads as
    [undefined], which is [None] in an [option json]. *)

(** A Number is kept as its Number::toString image.  The handlers observe a
    number in two ways only, ToBoolean and ToString, and the image decides
    both: ToBoolean is false exactly for +0, -0 and NaN, whose images are
    "0" and "NaN", and no other number has one of these images. *)
Record Number : Type := mkNumber { Number_toString : string }.

#[warnings="-register-all"]
Inductive json : Type :=
| JNull
| JBool (b : bool)
| JNum (n : Number)
| JStr (s : string)
| JArr (elements : list json)
| JObj (properties : list (string * json)).

(** A JavaScript value: [None] is [undefined]. *)
Definition value : Type := option json.
Definition undefined : value := None.

(** What a [throw] carries.  The runtime raises TypeErrors, the SDKs raise
    their own errors, with the vendor's detail in the message. *)
Inductive error : Type :=
| TypeError (message : string)
| SdkError (message : string).

Definition error_message (e : error) : string :=
  match e with
  | TypeError m => m
  | SdkError m => m
  end.

(** The result of evaluating an expression: a value or an exception. *)
Inductive outcome (A : Type) : Type :=
| Returns (a : A)
| Throws (e : error).
Arguments Returns {A} a.
Arguments Throws {A} e.

(** *** ToBoolean *)

Definition Number_truthy (n : Number) : bool :=
  negb (String.eqb (Number_toString n) "0"
        || String.eqb (Number_toString n) "NaN").

Definition json_truthy (j : json) : bool :=
  match j with
  | JNull => false
  | JBool b => b
  | JNum n => Number_truthy n
  | JStr s => negb (String.eqb s "")
  | JArr _ => true
  | JObj _ => true
  end.

Definition truthy (v : value) : bool :=
  match v with
  | None => false
  | Some j => json_truthy j
  end.

(** *** Property access *)

(** The last binding of a key wins, as in [JSON.parse]. *)
Fixpoint lookup (k : string) (ps : list (string * json)) : value :=
  match ps with
  | [] => None
  | (k', v) :: rest =>
      match lookup k rest with
      | Some w => Some w
      | None => if String.eqb k k' then Some v else None
      end
  end.

(** [o.k] on a value that is neither [undefined] nor [null], for a name [k]
    that no built-in prototype defines ([text], [targetLanguage],
    [instructions], [content], [choices], [message]): only an object can
    hold it. *)
Definition get (o : json) (k : string) : value :=
  match o with
  | JObj ps => lookup k ps
  | _ => None
  end.

(** [o[0]] on a value that is neither [undefined] nor [null]. *)
Definition get0 (o : json) : value :=
  match o with
  | JArr (x :: _) => Some x
  | JStr (String c _) => Some (JStr (String c EmptyString))
  | JObj ps => lookup "0" ps
  | _ => None
  end.

(** [v.k]: reading a property of [undefined] or [null] throws.  The
    message is the engine's; no response depends on it. *)
Definition cannot_read (k : string) : error :=
  TypeError ("Cannot read properties of undefined or null (reading '" ++ k ++ "')").

Definition member (v : value) (k : string) : outcome value :=
  match v with
  | None | Some JNull => Throws (cannot_read k)
  | Some o => Returns (get o k)
  end.

(** [v?.k] and [v?.[0]]: [undefined] and [null] short-circuit to
    [undefined]. *)
Definition opt_member (v : value) (k : string) : value :=
  match v with
  | None | Some JNull => None
  | Some o => get o k
  end.

Definition opt_index0 (v : value) : value :=
  match v with
  | None | Some JNull => None
  | Some o => get0 o
  end.

(** *** ToString, as a template literal applies it *)

Definition has_own (k : string) (ps : list (string * json)) : bool :=
  existsb (fun p => String.eqb k (fst p)) ps.

Definition cannot_convert : error :=
  TypeError "Cannot convert object to primitive value".

(** An array prints as its elements joined by commas, [null] elements as
    the empty string.  An object prints as "[object Object]" through
    [Object.prototype.toString], unless an own property named [toString]
    shadows it: a value out of JSON is never callable, [valueOf] gives the
    object back, and the conversion throws. *)
Fixpoint ToString (j : json) : outcome string :=
  match j with
  | JNull => Returns "null"
  | JBool true => Returns "true"
  | JBool false => Returns "false"
  | JNum n => Returns (Number_toString n)
  | JStr s => Returns s
  | JArr xs =>
      (fix join (first : bool) (l : list json) : outcome string :=
         match l with
         | [] => Returns ""
         | x :: rest =>
             match (match x with JNull => Returns "" | _ => ToString x end) with
             | Throws e => Throws e
             | Returns s =>
                 match join false rest with
                 | Throws e => Throws e
                 | Returns r =>
                     Returns ((if first then "" else ",") ++ s ++ r)
                 end
             end
         end) true xs
  | JObj ps =>
      if has_own "toString" ps then Throws cannot_convert
      else Returns "[object Object]"
  end.

Definition ToString_value (v : value) : outcome string :=
  match v with
  | None => Returns "undefined"
  | Some j => ToString j
  end.

(** A template literal: literal chunks and substitutions, converted and
    concatenated from left to right. *)
Inductive piece : Type :=
| Lit (s : string)
| Subst (v : value).

Fixpoint template (ps : list piece) : outcome string :=
  match ps with
  | [] => Returns ""
  | Lit s :: rest =>
      match template rest with
      | Returns r => Returns (s ++ r)
      | Throws e => Throws e
      end
  | Subst v :: rest =>
      match ToString_value v with
      | Throws e => Throws e
      | Returns s =>
          match template rest with
          | Returns r => Returns (s ++ r)
          | Throws e => Throws e
          end
      end
  end.

(** The line feed that the source writes as a backslash followed by n. *)
Definition LF : string := String "010"%char EmptyString.

(** [a || b] *)
Definition or_else (a : value) (b : json) : json :=
  match a with
  | Some j => if json_truthy j then j else b
  | None => b
  end.

(** ** The vendor SDKs and what a handler does to the outside *)

Inductive provider : Type := Gemini | Claude | OpenAI | DeepSeek.

(** [{ role: "user", content: prompt }] *)
Record Message : Type := mkMessage { role : string; content : string }.

(** The argument of [messages.create] and of [chat.completions.create]. *)
Record ChatRequest : Type := mkChatRequest {
  model : string;
  max_tokens : option nat;
  messages : list Message
}.

(** The Gemini SDK returns objects with behaviour: [result.response] is
    awaited and may reject, [generationResponse.text()] is a call and may
    throw. *)
Record GenerationResponse : Type := mkGenerationResponse {
  text : outcome json
}.

Record GenerateContentResult : Type := mkGenerateContentResult {
  response : outcome GenerationResponse
}.

(** The four clients built at start-up, seen from the handlers: what the
    awaited call gives for a request.  A handler calls its client at most
    once, so a function of the request is enough. *)
Record SDK : Type := mkSDK {
  geminiClient : string -> string -> outcome GenerateContentResult;
  claudeClient : ChatRequest -> outcome value;
  openaiClient : ChatRequest -> outcome value;
  deepseekClient : ChatRequest -> outcome value
}.

(** What a handler does besides answering: outbound vendor calls and lines
    on the operator console. *)
Inductive event : Type :=
| GenerateContent (model_name : string) (prompt : string)
| ChatCreate (p : provider) (request : ChatRequest)
| ConsoleError (label : string) (message : string).

Definition trace : Type := list event.

Definition is_provider_call (ev : event) : bool :=
  match ev with
  | GenerateContent _ _ | ChatCreate _ _ => true
  | ConsoleError _ _ => false
  end.

Definition provider_calls (t : trace) : trace := filter is_provider_call t.

(** The prompts that left for a vendor, in order. *)
Fixpoint prompts_sent (t : trace) : list string :=
  match t with
  | [] => []
  | GenerateContent _ prompt :: rest => prompt :: prompts_sent rest
  | ChatCreate _ request :: rest =>
      map content (messages request) ++ prompts_sent rest
  | ConsoleError _ _ :: rest => prompts_sent rest
  end.

(** [res.status(code).json(body)] *)
Record Response : Type := mkResponse { status : nat; body : json }.

Definition res_status_json (code : nat) (b : json) : Response :=
  mkResponse code b.

(** [res.json(body)]: the status stays at Express's default. *)
Definition res_json (b : json) : Response := mkResponse 200 b.

(** ** The handler monad: exceptions over a trace of effects *)

Module Run.

Definition t (A : Type) : Type := trace -> outcome A * trace.

Definition ret {A} (a : A) : t A := fun tr => (Returns a, tr).

Definition bind {A B} (m : t A) (f : A -> t B) : t B :=
  fun tr =>
    match m tr with
    | (Returns a, tr') => f a tr'
    | (Throws e, tr') => (Throws e, tr')
    end.

(** An expression that may throw and has no other effect. *)
Definition lift {A} (o : outcome A) : t A := fun tr => (o, tr).

Definition emit (ev : event) : t unit := fun tr => (Returns tt, (tr ++ [ev])%list).

(** An awaited vendor call: it is recorded, then resolves or rejects. *)
Definition call {A} (ev : event) (o : outcome A) : t A :=
  bind (emit ev) (fun _ => lift o).

(** [try { m } catch (error) { h error }] *)
Definition try_catch {A} (m : t A) (h : error -> t A) : t A :=
  fun tr =>
    match m tr with
    | (Throws e, tr') => h e tr'
    | r => r
    end.

End Run.

Notation "x <- m ;; k" := (Run.bind m (fun x => k))
  (at level 61, m at next level, right associativity).
Notation "m ;;; k" := (Run.bind m (fun _ => k))
  (at level 61, right associativity).

(** ** The route handlers *)

(** [const { text, targetLanguage, instructions } = req.body;]
    Destructuring [undefined] or [null] throws; [req.body] is [undefined]
    when no body was parsed and the Express version leaves it unset. *)
Record Fields : Type := mkFields {
  f_text : value;
  f_targetLanguage : value;
  f_instructions : value
}.

Definition cannot_destructure : error :=
  TypeError "Cannot destructure property 'text' of 'req.body' as it is undefined.".

Definition destructure (req_body : value) : outcome Fields :=
  match req_body with
  | None | Some JNull => Throws cannot_destructure
  | Some o =>
      Returns (mkFields (get o "text") (get o "targetLanguage")
                        (get o "instructions"))
  end.

(** [POST /api/translate/gemini]
    (src/server.js:210-235; second copy, lines 66-91) *)
Definition gemini_prompt (f : Fields) : outcome string :=
  if truthy (f_instructions f)
  then template [Lit "Instructions: "; Subst (f_instructions f);
                 Lit (LF ++ LF ++ "Traduire ce texte en ");
                 Subst (f_targetLanguage f); Lit (":" ++ LF);
                 Subst (f_text f)]
  else template [Lit "Traduire ce texte en "; Subst (f_targetLanguage f);
                 Lit (":" ++ LF); Subst (f_text f)].

Definition translate_gemini (sdk : SDK) (req_body : value) : Run.t Response :=
  Run.try_catch
    (f <- Run.lift (destructure req_body) ;;
     if negb (truthy (f_text f)) || negb (truthy (f_targetLanguage f)) then
       Run.ret (res_status_json 400
         (JObj [("error", JStr "Champs text et targetLanguage requis.")]))
     else
       prompt <- Run.lift (gemini_prompt f) ;;
       result <- Run.call (GenerateContent "gemini-1.5-flash" prompt)
                   (geminiClient sdk "gemini-1.5-flash" prompt) ;;
       generationResponse <- Run.lift (response result) ;;
       translation <- Run.lift (text generationResponse) ;;
       Run.ret (res_json (JObj [("translation", translation)])))
    (fun error =>
       Run.emit (ConsoleError "Erreur Gemini:" (error_message error)) ;;;
       Run.ret (res_status_json 500
         (JObj [("error", JStr "Erreur lors de la traduction via Gemini")]))).

(** [POST /api/translate/claude]
    (src/server.js:241-266; second copy, lines 97-122) *)
Definition claude_prompt (f : Fields) : outcome string :=
  if truthy (f_instructions f)
  then template [Lit "Instructions: "; Subst (f_instructions f);
                 Lit (LF ++ LF ++ "Traduire ce texte en ");
                 Subst (f_targetLanguage f); Lit (":" ++ LF);
                 Subst (f_text f)]
  else template [Lit "Traduire ce texte en "; Subst (f_targetLanguage f);
                 Lit (":" ++ LF); Subst (f_text f)].

Definition claude_request (prompt : string) : ChatRequest :=
  mkChatRequest "claude-3-sonnet-20240229" (Some 1000)
                [mkMessage "user" prompt].

(** [response.content?.[0]?.text] *)
Definition claude_extract (resp : value) : outcome value :=
  match member resp "content" with
  | Throws e => Throws e
  | Returns c => Returns (opt_member (opt_index0 c) "text")
  end.

Definition translate_claude (sdk : SDK) (req_body : value) : Run.t Response :=
  Run.try_catch
    (f <- Run.lift (destructure req_body) ;;
     if negb (truthy (f_text f)) || negb (truthy (f_targetLanguage f)) then
       Run.ret (res_status_json 400
         (JObj [("error", JStr "Champs text et targetLanguage requis.")]))
     else
       prompt <- Run.lift (claude_prompt f) ;;
       resp <- Run.call (ChatCreate Claude (claude_request prompt))
                 (claudeClient sdk (claude_request prompt)) ;;
       extracted <- Run.lift (claude_extract resp) ;;
       let translation := or_else extracted (JStr "(Aucune réponse Claude)") in
       Run.ret (res_json (JObj [("translation", translation)])))
    (fun error =>
       Run.emit (ConsoleError "Erreur Claude:" (error_message error)) ;;;
       Run.ret (res_status_json 500
         (JObj [("error", JStr "Erreur lors de la traduction via Claude")]))).

(** [POST /api/translate/openai]
    (src/server.js:272-295; second copy, lines 128-151) *)
Definition openai_prompt (f : Fields) : outcome string :=
  if truthy (f_instructions f)
  then template [Lit "Instructions: "; Subst (f_instructions f);
                 Lit (LF ++ LF ++ "Traduire ce texte en ");
                 Subst (f_targetLanguage f); Lit (":" ++ LF);
                 Subst (f_text f)]
  else template [Lit "Traduire ce texte en "; Subst (f_targetLanguage f);
                 Lit (":" ++ LF); Subst (f_text f)].

Definition openai_request (prompt : string) : ChatRequest :=
  mkChatRequest "gpt-4-turbo-preview" None [mkMessage "user" prompt].

(** [response.choices?.[0]?.message?.content] *)
Definition choices_extract (resp : value) : outcome value :=
  match member resp "choices" with
  | Throws e => Throws e
  | Returns c =>
      Returns (opt_member (opt_member (opt_index0 c) "message") "content")
  end.

Definition translate_openai (sdk : SDK) (req_body : value) : Run.t Response :=
  Run.try_catch
    (f <- Run.lift (destructure req_body) ;;
     if negb (truthy (f_text f)) || negb (truthy (f_targetLanguage f)) then
       Run.ret (res_status_json 400
         (JObj [("error", JStr "Champs text et targetLanguage requis.")]))
     else
       prompt <- Run.lift (openai_prompt f) ;;
       resp <- Run.call (ChatCreate OpenAI (openai_request prompt))
                 (openaiClient sdk (openai_request prompt)) ;;
       extracted <- Run.lift (choices_extract resp) ;;
       let translation := or_else extracted (JStr "(Aucune réponse GPT)") in
       Run.ret (res_json (JObj [("translation", translation)])))
    (fun error =>
       Run.emit (ConsoleError "Erreur OpenAI:" (error_message error)) ;;;
       Run.ret (res_status_json 500
         (JObj [("error", JStr "Erreur lors de la traduction via OpenAI")]))).

(** [POST /api/translate/deepseek]  (second copy, lines 157-183) *)
Definition deepseek_prompt (f : Fields) : outcome string :=
  if truthy (f_instructions f)
  then template [Lit "Instructions: "; Subst (f_instructions f);
                 Lit (LF ++ LF ++ "Traduire ce texte en ");
                 Subst (f_targetLanguage f); Lit (":" ++ LF);
                 Subst (f_text f)]
  else template [Lit "Traduire ce texte en "; Subst (f_targetLanguage f);
                 Lit (":" ++ LF); Subst (f_text f)].

Definition deepseek_request (prompt : string) : ChatRequest :=
  mkChatRequest "deepseek-chat" None [mkMessage "user" prompt].

Definition translate_deepseek (sdk : SDK) (req_body : value) : Run.t Response :=
  Run.try_catch
    (f <- Run.lift (destructure req_body) ;;
     if negb (truthy (f_text f)) || negb (truthy (f_targetLanguage f)) then
       Run.ret (res_status_json 400
         (JObj [("error", JStr "Champs text et targetLanguage requis.")]))
     else
       prompt <- Run.lift (deepseek_prompt f) ;;
       resp <- Run.call (ChatCreate DeepSeek (deepseek_request prompt))
                 (deepseekClient sdk (deepseek_request prompt)) ;;
       extracted <- Run.lift (choices_extract resp) ;;
       let translation := or_else extracted (JStr "(Aucune réponse DeepSeek)") in
       Run.ret (res_json (JObj [("translation", translation)])))
    (fun error =>
       Run.emit (ConsoleError "Erreur DeepSeek:" (error_message error)) ;;;
       Run.ret (res_status_json 500
         (JObj [("error", JStr "Erreur lors de la traduction via DeepSeek")]))).

(** Route dispatch: the endpoint that was called selects the handler. *)
Definition handler (p : provider) : SDK -> value -> Run.t Response :=
  match p with
  | Gemini => translate_gemini
  | Claude => translate_claude
  | OpenAI => translate_openai
  | DeepSeek => translate_deepseek
  end.

(** One request, start to finish: the handler's result and its effects. *)
Definition serve (p : provider) (sdk : SDK) (req_body : value)
  : outcome Response * trace :=
  handler p sdk req_body [].

(** ** The gateway contract, read off the four handlers

    The definitions below name the parts that the handlers share, indexed
    by provider; the lemmas of the next section tie them to the handlers. *)

Definition build_prompt (p : provider) : Fields -> outcome string :=
  match p with
  | Gemini => gemini_prompt
  | Claude => claude_prompt
  | OpenAI => openai_prompt
  | DeepSeek => deepseek_prompt
  end.

Definition validation_reply : Response :=
  mkResponse 400 (JObj [("error", JStr "Champs text et targetLanguage requis.")]).

Definition provider_error_message (p : provider) : string :=
  match p with
  | Gemini => "Erreur lors de la traduction via Gemini"
  | Claude => "Erreur lors de la traduction via Claude"
  | OpenAI => "Erreur lors de la traduction via OpenAI"
  | DeepSeek => "Erreur lors de la traduction via DeepSeek"
  end.

Definition error_reply (p : provider) : Response :=
  mkResponse 500 (JObj [("error", JStr (provider_error_message p))]).

Definition translation_reply (translation : json) : Response :=
  mkResponse 200 (JObj [("translation", translation)]).

Definition console_label (p : provider) : string :=
  match p with
  | Gemini => "Erreur Gemini:"
  | Claude => "Erreur Claude:"
  | OpenAI => "Erreur OpenAI:"
  | DeepSeek => "Erreur DeepSeek:"
  end.

(** The outbound call a handler makes with a prompt. *)
Definition call_event (p : provider) (prompt : string) : event :=
  match p with
  | Gemini => GenerateContent "gemini-1.5-flash" prompt
  | Claude => ChatCreate Claude (claude_request prompt)
  | OpenAI => ChatCreate OpenAI (openai_request prompt)
  | DeepSeek => ChatCreate DeepSeek (deepseek_request prompt)
  end.

(** The fallback text of each provider; Gemini has none. *)
Definition placeholder (p : provider) : option string :=
  match p with
  | Gemini => None
  | Claude => Some "(Aucune réponse Claude)"
  | OpenAI => Some "(Aucune réponse GPT)"
  | DeepSeek => Some "(Aucune réponse DeepSeek)"
  end.

Definition and_then {A B} (o : outcome A) (k : A -> outcome B) : outcome B :=
  match o with
  | Returns a => k a
  | Throws e => Throws e
  end.

(** The content a handler reads out of what its vendor answered, before any
    fallback: the call, then the extraction path. *)
Definition extracted (p : provider) (sdk : SDK) (prompt : string)
  : outcome value :=
  match p with
  | Gemini =>
      and_then (geminiClient sdk "gemini-1.5-flash" prompt) (fun result =>
      and_then (response result) (fun generationResponse =>
      and_then (text generationResponse) (fun translation =>
      Returns (Some translation))))
  | Claude =>
      and_then (claudeClient sdk (claude_request prompt)) claude_extract
  | OpenAI =>
      and_then (openaiClient sdk (openai_request prompt)) choices_extract
  | DeepSeek =>
      and_then (deepseekClient sdk (deepseek_request prompt)) choices_extract
  end.

(** The provider adapter of the contract: prompt in, translation or
    failure out.  The call, the extraction path and, where the handler has
    one, the fallback. *)
Definition adapter (p : provider) (sdk : SDK) (prompt : string)
  : outcome json :=
  match p with
  | Gemini =>
      and_then (geminiClient sdk "gemini-1.5-flash" prompt) (fun result =>
      and_then (response result) (fun generationResponse =>
      text generationResponse))
  | Claude =>
      and_then (claudeClient sdk (claude_request prompt)) (fun resp =>
      and_then (claude_extract resp) (fun v =>
      Returns (or_else v (JStr "(Aucune réponse Claude)"))))
  | OpenAI =>
      and_then (openaiClient sdk (openai_request prompt)) (fun resp =>
      and_then (choices_extract resp) (fun v =>
      Returns (or_else v (JStr "(Aucune réponse GPT)"))))
  | DeepSeek =>
      and_then (deepseekClient sdk (deepseek_request prompt)) (fun resp =>
      and_then (choices_extract resp) (fun v =>
      Returns (or_else v (JStr "(Aucune réponse DeepSeek)"))))
  end.

(** A request that passes validation and whose prompt could be built. *)
Definition valid_request (p : provider) (req_body : value) (f : Fields)
  (prompt : string) : Prop :=
  destructure req_body = Returns f /\
  truthy (f_text f) = true /\
  truthy (f_targetLanguage f) = true /\
  build_prompt p f = Returns prompt.

(** *** The Prompt Builder of the specification

    Written from the specification's words, to be compared with the
    handlers' prompts: [instructions] is an optional string and the empty
    string means absent. *)
Definition Prompt_Builder (text targetLanguage : string)
  (instructions : option string) : string :=
  match instructions with
  | None | Some EmptyString =>
      "Traduire ce texte en " ++ targetLanguage ++ ":" ++ LF ++ text
  | Some i =>
      "Instructions: " ++ i ++ LF ++ LF ++
      "Traduire ce texte en " ++ targetLanguage ++ ":" ++ LF ++ text
  end.

(** *** Test doubles *)

Definition claude_envelope (t : json) : value :=
  Some (JObj [("role", JStr "assistant");
              ("content", JArr [JObj [("type", JStr "text"); ("text", t)]])]).

Definition chat_envelope (t : json) : value :=
  Some (JObj [("choices",
               JArr [JObj [("message", JObj [("role", JStr "assistant");
                                             ("content", t)])]])]).

Definition prompt_of (r : ChatRequest) : string :=
  String.concat "" (map content (messages r)).

(** Every client answers [reply prompt], wrapped in its vendor's
    envelope. *)
Definition stub_sdk (reply : string -> json) : SDK :=
  mkSDK
    (fun _ prompt =>
       Returns (mkGenerateContentResult
                  (Returns (mkGenerationResponse (Returns (reply prompt))))))
    (fun r => Returns (claude_envelope (reply (prompt_of r))))
    (fun r => Returns (chat_envelope (reply (prompt_of r))))
    (fun r => Returns (chat_envelope (reply (prompt_of r)))).

(** Every client fails with the given vendor detail. *)
Definition failing_sdk (detail : string) : SDK :=
  mkSDK (fun _ _ => Throws (SdkError detail))
        (fun _ => Throws (SdkError detail))
        (fun _ => Throws (SdkError detail))
        (fun _ => Throws (SdkError detail)).

Definition request_body (text targetLanguage : json) (instructions : value)
  : value :=
  Some (JObj (("text", text) :: ("targetLanguage", targetLanguage) ::
              match instructions with
              | Some i => [("instructions", i)]
              | None => []
              end)).

Definition zero : Number := mkNumber "0".

Definition has_key (k : string) (j : json) : bool :=
  match j with
  | JObj ps => has_own k ps
  | _ => false
  end.

(** The text fields as the SDKs declare them: Gemini's [text()] returns a
    string; Claude's text block holds a string, and the first block may be
    of a kind without text; OpenAI's and DeepSeek's message content is a
    string or [null]. *)
Definition text_typed (p : provider) (v : value) : bool :=
  match v with
  | Some (JStr _) => true
  | Some JNull | None =>
      match placeholder p with Some _ => true | None => false end
  | _ => false
  end.

Definition vendor_text_typed (p : provider) (sdk : SDK) : Prop :=
  forall (prompt : string) (v : value),
    extracted p sdk prompt = Returns v -> text_typed p v = true.

(** What leaves for the vendor is decided by the body alone. *)
Definition outbound_prompts (req_body : value) : list string :=
  match destructure req_body with
  | Throws _ => []
  | Returns f =>
      if truthy (f_text f) && truthy (f_targetLanguage f)
      then match gemini_prompt f with
           | Returns prompt => [prompt]
           | Throws _ => []
           end
      else []
  end.

(** ** Around the claims: one scheme, the console, convertibility, routes *)

(** The scheme the four handlers follow, with the provider as a parameter:
    a reference to compare the handlers with, not code of the
    repository. *)
Definition generic_translate (p : provider) (sdk : SDK) (req_body : value)
  : Run.t Response :=
  Run.try_catch
    (f <- Run.lift (destructure req_body) ;;
     if negb (truthy (f_text f)) || negb (truthy (f_targetLanguage f)) then
       Run.ret validation_reply
     else
       prompt <- Run.lift (build_prompt p f) ;;
       translation <- Run.call (call_event p prompt) (adapter p sdk prompt) ;;
       Run.ret (translation_reply translation))
    (fun error =>
       Run.emit (ConsoleError (console_label p) (error_message error)) ;;;
       Run.ret (error_reply p)).

(** The lines written with [console.error]: label and message. *)
Fixpoint console_lines (t : trace) : list (string * string) :=
  match t with
  | [] => []
  | ConsoleError label message :: rest => (label, message) :: console_lines rest
  | _ :: rest => console_lines rest
  end.

(** Two SDKs whose client for [p] behaves alike; the other clients are
    free. *)
Definition same_client (p : provider) (a b : SDK) : Prop :=
  match p with
  | Gemini => forall m prompt, geminiClient a m prompt = geminiClient b m prompt
  | Claude => forall r, claudeClient a r = claudeClient b r
  | OpenAI => forall r, openaiClient a r = openaiClient b r
  | DeepSeek => forall r, deepseekClient a r = deepseekClient b r
  end.

(** The client a handler talks to, as a function of the prompt. *)
Definition chat_client (p : provider) (sdk : SDK) (prompt : string)
  : option (outcome value) :=
  match p with
  | Gemini => None
  | Claude => Some (claudeClient sdk (claude_request prompt))
  | OpenAI => Some (openaiClient sdk (openai_request prompt))
  | DeepSeek => Some (deepseekClient sdk (deepseek_request prompt))
  end.

(** The extraction path of a chat endpoint. *)
Definition chat_extract (p : provider) : value -> outcome value :=
  match p with
  | Claude => claude_extract
  | _ => choices_extract
  end.

(** A value that ToString converts: no object with an own [toString]
    property, at the top or as an element of nested arrays. *)
Fixpoint convertible (j : json) : bool :=
  match j with
  | JArr xs =>
      (fix all (l : list json) : bool :=
         match l with
         | [] => true
         | x :: rest => convertible x && all rest
         end) xs
  | JObj ps => negb (has_own "toString" ps)
  | _ => true
  end.

Definition convertible_value (v : value) : bool :=
  match v with
  | None => true
  | Some j => convertible j
  end.

(** The fields that enter a prompt can all be converted. *)
Definition fields_convertible (f : Fields) : bool :=
  convertible_value (f_text f) && convertible_value (f_targetLanguage f)
  && convertible_value (f_instructions f).

(** [Array.prototype.join] as [ToString] runs it on the elements of an
    array, named to reason about it. *)
Fixpoint join_elements (first : bool) (l : list json) : outcome string :=
  match l with
  | [] => Returns ""
  | x :: rest =>
      match (match x with JNull => Returns "" | _ => ToString x end) with
      | Throws e => Throws e
      | Returns s =>
          match join_elements false rest with
          | Throws e => Throws e
          | Returns r => Returns ((if first then "" else ",") ++ s ++ r)
          end
      end
  end.

(** [ToString] either returns, on a convertible value, or throws the one
    TypeError. *)
Definition converts (j : json) : Prop :=
  (convertible j = true /\ exists s, ToString j = Returns s) \/
  (convertible j = false /\ ToString j = Throws cannot_convert).

(** Induction on [json] with the hypothesis on the elements of an array. *)
Section json_induction.

Variable P : json -> Prop.
Hypothesis P_null : P JNull.
Hypothesis P_bool : forall b, P (JBool b).
Hypothesis P_num : forall n, P (JNum n).
Hypothesis P_str : forall s, P (JStr s).
Hypothesis P_arr : forall xs, Forall P xs -> P (JArr xs).
Hypothesis P_obj : forall ps, P (JObj ps).

Fixpoint json_elements_ind (j : json) : P j :=
  match j with
  | JNull => P_null
  | JBool b => P_bool b
  | JNum n => P_num n
  | JStr s => P_str s
  | JArr xs =>
      P_arr ((fix all (l : list json) : Forall P l :=
                match l with
                | [] => Forall_nil P
                | x :: rest => Forall_cons x (json_elements_ind x) (all rest)
                end) xs)
  | JObj ps => P_obj ps
  end.

End json_induction.

(** *** The two applications

    [app.get] and [app.post] register routes in order; a request goes to
    the first route of its method whose path pattern matches.  How a
    pattern matches a path is Express's business and stays a parameter
    [path_matches pattern path]. *)
Inductive method : Type := GET | POST.

Definition method_eqb (a b : method) : bool :=
  match a, b with
  | GET, GET | POST, POST => true
  | _, _ => false
  end.

(** What a handler answers with: [res.json(...)] or [res.send(text)]. *)
Inductive Reply : Type :=
| Json (r : Response)
| Sent (code : nat) (payload : string).

Definition Handler : Type := SDK -> value -> Run.t Reply.

Record Route : Type := mkRoute {
  route_method : method;
  route_pattern : string;
  route_handler : Handler
}.

(** [app.get('/', (req, res) => { res.send("...") })]
    (src/server.js:202-204; second copy, lines 58-60) *)
Definition root : Handler :=
  fun _ _ => Run.ret (Sent 200 "Backend de traduction opérationnel !").

Definition translate_route (p : provider) : Handler :=
  fun sdk req_body => r <- handler p sdk req_body ;; Run.ret (Json r).

(** src/server.js, port 3001 *)
Definition app_3001 : list Route :=
  [mkRoute GET "/" root;
   mkRoute POST "/api/translate/gemini" (translate_route Gemini);
   mkRoute POST "/api/translate/claude" (translate_route Claude);
   mkRoute POST "/api/translate/openai" (translate_route OpenAI)].

(** The second copy, port 3002 *)
Definition app_3002 : list Route :=
  [mkRoute GET "/" root;
   mkRoute POST "/api/translate/gemini" (translate_route Gemini);
   mkRoute POST "/api/translate/claude" (translate_route Claude);
   mkRoute POST "/api/translate/openai" (translate_route OpenAI);
   mkRoute POST "/api/translate/deepseek" (translate_route DeepSeek)].

Fixpoint dispatch (path_matches : string -> string -> bool) (app : list Route)
  (m : method) (path : string) : option Handler :=
  match app with
  | [] => None
  | r :: rest =>
      if method_eqb m (route_method r) && path_matches (route_pattern r) path
      then Some (route_handler r)
      else dispatch path_matches rest m path
  end.

(** A request against an application: [None] when no route takes it and
    Express answers on its own. *)
Definition handle (path_matches : string -> string -> bool) (app : list Route)
  (sdk : SDK) (m : method) (path : string) (req_body : value)
  : option (outcome Reply * trace) :=
  match dispatch path_matches app m path with
  | Some h => Some (h sdk req_body [])
  | None => None
  end.

(** The decision table of a request: the answer and the effects, case by
    case.  [handler_answer] below shows that every handler follows it. *)
Definition answer (p : provider) (sdk : SDK) (req_body : value)
  : Response * trace :=
  match destructure req_body with
  | Throws e =>
      (error_reply p, [ConsoleError (console_label p) (error_message e)])
  | Returns f =>
      if truthy (f_text f) && truthy (f_targetLanguage f) then
        match build_prompt p f with
        | Throws e =>
            (error_reply p, [ConsoleError (console_label p) (error_message e)])
        | Returns prompt =>
            match adapter p sdk prompt with
            | Returns translation =>
                (translation_reply translation, [call_event p prompt])
            | Throws e =>
                (error_reply p,
                 [call_event p prompt;
                  ConsoleError (console_label p) (error_message e)])
            end
        end
      else (validation_reply, [])
  end.

(** The envelope key under which a chat endpoint looks for its list. *)
Definition chat_key (p : provider) : string :=
  match p with
  | Claude => "content"
  | _ => "choices"
  end.

(** What a chat endpoint reads in the first element of that list. *)
Definition first_element_text (p : provider) (first : json) : value :=
  match p with
  | Claude => opt_member (Some first) "text"
  | _ => opt_member (opt_member (Some first) "message") "content"
  end.

(** The outcome of a translate handler, seen as the outcome of its
    route. *)
Definition json_reply (x : outcome Response * trace) : outcome Reply * trace :=
  match x with
  | (Returns r, t) => (Returns (Json r), t)
  | (Throws e, t) => (Throws e, t)
  end.

(** ** Conversions, on examples *)

Example ToString_array :
  ToString (JArr [JStr "a"; JNull; JArr [JNum (mkNumber "1"); JBool true]])
  = Returns "a,,1,true".
Proof. reflexivity. Qed.

Example ToString_shadowed :
  ToString (JArr [JObj [("toString", JStr "x")]]) = Throws cannot_convert.
Proof. reflexivity. Qed.

(** ** How a request runs *)

Ltac run_handler :=
  unfold serve, handler, translate_gemini, translate_claude,
    translate_openai, translate_deepseek, Run.try_catch, Run.bind,
    Run.call, Run.lift, Run.emit, Run.ret.

(** No parsed body: the destructuring throws and the catch branch
    answers. *)
Lemma serve_no_body (p : provider) (sdk : SDK) (req_body : value) (e : error) :
  destructure req_body = Throws e ->
  serve p sdk req_body
  = (Returns (error_reply p), [ConsoleError (console_label p) (error_message e)]).
Proof.
  intros H. destruct p; run_handler; rewrite H; reflexivity.
Qed.

(** A falsy [text] or [targetLanguage]: the early return, nothing else. *)
Lemma serve_rejected (p : provider) (sdk : SDK) (req_body : value) (f : Fields) :
  destructure req_body = Returns f ->
  truthy (f_text f) = false \/ truthy (f_targetLanguage f) = false ->
  serve p sdk req_body = (Returns validation_reply, []).
Proof.
  intros H Hf.
  assert (G : negb (truthy (f_text f)) || negb (truthy (f_targetLanguage f))
              = true).
  { destruct Hf as [E | E]; rewrite E; simpl; auto using orb_true_r. }
  destruct p; run_handler; rewrite H, G; reflexivity.
Qed.

(** The conversion of a field throws inside the template literal: no call,
    the catch branch answers. *)
Lemma serve_prompt_throws (p : provider) (sdk : SDK) (req_body : value)
  (f : Fields) (e : error) :
  destructure req_body = Returns f ->
  truthy (f_text f) = true ->
  truthy (f_targetLanguage f) = true ->
  build_prompt p f = Throws e ->
  serve p sdk req_body
  = (Returns (error_reply p), [ConsoleError (console_label p) (error_message e)]).
Proof.
  intros H Ht Hl Hp.
  destruct p; simpl in Hp; run_handler; rewrite H, Ht, Hl; simpl;
    rewrite Hp; reflexivity.
Qed.

(** A valid request: one outbound call with the prompt, then the adapter's
    result decides between the 200 and the 500 answer. *)
Lemma serve_valid (p : provider) (sdk : SDK) (req_body : value) (f : Fields)
  (prompt : string) :
  valid_request p req_body f prompt ->
  serve p sdk req_body
  = match adapter p sdk prompt with
    | Returns translation =>
        (Returns (translation_reply translation), [call_event p prompt])
    | Throws e =>
        (Returns (error_reply p),
         [call_event p prompt; ConsoleError (console_label p) (error_message e)])
    end.
Proof.
  intros (H & Ht & Hl & Hp).
  destruct p; simpl in Hp; run_handler; rewrite H, Ht, Hl; simpl;
    rewrite Hp; simpl; unfold adapter, and_then.
  - destruct (geminiClient sdk _ prompt) as [r | e]; [ | reflexivity].
    destruct (response r) as [g | e]; [ | reflexivity].
    destruct (text g); reflexivity.
  - destruct (claudeClient sdk _) as [r | e]; [ | reflexivity].
    destruct (claude_extract r); reflexivity.
  - destruct (openaiClient sdk _) as [r | e]; [ | reflexivity].
    destruct (choices_extract r); reflexivity.
  - destruct (deepseekClient sdk _) as [r | e]; [ | reflexivity].
    destruct (choices_extract r); reflexivity.
Qed.

(** A field that passes validation and cannot be converted: an object
    with an own [toString] property.  The template literal throws, no
    vendor is called and the answer is 500. *)
Example unconvertible_field :
  serve Claude (stub_sdk JStr)
    (request_body (JObj [("toString", JNull)]) (JStr "English") None)
  = (Returns (error_reply Claude),
     [ConsoleError "Erreur Claude:" "Cannot convert object to primitive value"]).
Proof. reflexivity. Qed.

(** No body was parsed. *)
Example undefined_body :
  fst (serve Gemini (stub_sdk JStr) undefined) = Returns (error_reply Gemini).
Proof. reflexivity. Qed.

(** ** Prompts *)

Lemma append_empty_r (s : string) : s ++ "" = s.
Proof. induction s as [ | c s IH]; simpl; [ | rewrite IH]; reflexivity. Qed.

Lemma truthy_string (s : string) : truthy (Some (JStr s)) = true <-> s <> "".
Proof.
  simpl. destruct (String.eqb_spec s ""); simpl; split; congruence.
Qed.

(** The four prompt expressions are one and the same. *)
Lemma build_prompt_gemini (p : provider) (f : Fields) :
  build_prompt p f = gemini_prompt f.
Proof. destruct p; reflexivity. Qed.

Lemma prompt_plain (p : provider) (f : Fields) (t l : string) :
  truthy (f_instructions f) = false ->
  ToString_value (f_targetLanguage f) = Returns l ->
  ToString_value (f_text f) = Returns t ->
  build_prompt p f = Returns ("Traduire ce texte en " ++ l ++ ":" ++ LF ++ t).
Proof.
  intros Hi Hl Ht. rewrite build_prompt_gemini. unfold gemini_prompt.
  rewrite Hi. cbn [template]. rewrite Hl, Ht.
  cbn. rewrite append_empty_r. reflexivity.
Qed.

Lemma prompt_instructed (p : provider) (f : Fields) (t l i : string) :
  truthy (f_instructions f) = true ->
  ToString_value (f_instructions f) = Returns i ->
  ToString_value (f_targetLanguage f) = Returns l ->
  ToString_value (f_text f) = Returns t ->
  build_prompt p f
  = Returns ("Instructions: " ++ i ++ LF ++ LF ++
             "Traduire ce texte en " ++ l ++ ":" ++ LF ++ t).
Proof.
  intros Hi Hs Hl Ht. rewrite build_prompt_gemini. unfold gemini_prompt.
  rewrite Hi. cbn [template]. rewrite Hs, Hl, Ht.
  cbn. rewrite append_empty_r. reflexivity.
Qed.

Lemma prompts_sent_call (p : provider) (prompt : string) (rest : trace) :
  prompts_sent (call_event p prompt :: rest) = prompt :: prompts_sent rest.
Proof. destruct p; reflexivity. Qed.

Lemma prompts_sent_serve (p : provider) (sdk : SDK) (req_body : value) :
  prompts_sent (snd (serve p sdk req_body)) = outbound_prompts req_body.
Proof.
  unfold outbound_prompts.
  destruct (destructure req_body) as [f | e] eqn:H.
  - destruct (truthy (f_text f)) eqn:Ht.
    + destruct (truthy (f_targetLanguage f)) eqn:Hl; simpl.
      * destruct (gemini_prompt f) as [prompt | e] eqn:Hp.
        -- rewrite (@serve_valid p sdk req_body f prompt).
           ++ destruct (adapter p sdk prompt); simpl snd;
                rewrite prompts_sent_call; reflexivity.
           ++ repeat split; auto. rewrite build_prompt_gemini; exact Hp.
        -- rewrite (@serve_prompt_throws p sdk req_body f e); auto.
           rewrite build_prompt_gemini; exact Hp.
      * rewrite (@serve_rejected p sdk req_body f); auto.
    + rewrite (@serve_rejected p sdk req_body f); auto.
  - rewrite (@serve_no_body p sdk req_body e); auto.
Qed.

(** C1.  A body whose [text] or [targetLanguage] is missing or falsy is
    answered, on each of the four endpoints, with HTTP 400 and the body
    [{"error": "Champs text et targetLanguage requis."}], and no vendor is
    called. *)
Theorem missing_field_rejected (p : provider) (sdk : SDK) (req_body : value)
  (f : Fields) :
  destructure req_body = Returns f ->
  truthy (f_text f) = false \/ truthy (f_targetLanguage f) = false ->
  fst (serve p sdk req_body)
  = Returns (mkResponse 400
      (JObj [("error", JStr "Champs text et targetLanguage requis.")])) /\
  provider_calls (snd (serve p sdk req_body)) = [].
Proof.
  intros H Hf. rewrite (serve_rejected p sdk req_body H Hf). split; reflexivity.
Qed.

Lemma missing_field_rejected_witness :
  fst (serve DeepSeek (stub_sdk JStr)
         (Some (JObj [("text", JStr ""); ("targetLanguage", JStr "English")])))
  = Returns (mkResponse 400
      (JObj [("error", JStr "Champs text et targetLanguage requis.")])) /\
  provider_calls
    (snd (serve DeepSeek (stub_sdk JStr)
            (Some (JObj [("text", JStr ""); ("targetLanguage", JStr "English")]))))
  = [].
Proof.
  apply (@missing_field_rejected DeepSeek (stub_sdk JStr) _
           (mkFields (Some (JStr "")) (Some (JStr "English")) None)).
  - reflexivity.
  - left. reflexivity.
Defined.

(** C2.  For a request that passes validation and whose [instructions] is
    absent or empty (falsy), exactly one prompt leaves for the vendor and it
    is "Traduire ce texte en {targetLanguage}:\n{text}", each field
    substituted as the template literal converts it (a string field is its
    own conversion). *)
Theorem prompt_without_instructions (p : provider) (sdk : SDK)
  (req_body : value) (f : Fields) (t l : string) :
  destructure req_body = Returns f ->
  truthy (f_text f) = true ->
  truthy (f_targetLanguage f) = true ->
  truthy (f_instructions f) = false ->
  ToString_value (f_text f) = Returns t ->
  ToString_value (f_targetLanguage f) = Returns l ->
  prompts_sent (snd (serve p sdk req_body))
  = ["Traduire ce texte en " ++ l ++ ":" ++ LF ++ t].
Proof.
  intros H Ht Hl Hi Hst Hsl.
  rewrite prompts_sent_serve. unfold outbound_prompts.
  rewrite H, Ht, Hl. simpl.
  rewrite <- (build_prompt_gemini p), (prompt_plain p f Hi Hsl Hst).
  reflexivity.
Qed.

Lemma prompt_without_instructions_witness :
  prompts_sent
    (snd (serve OpenAI (stub_sdk JStr)
            (request_body (JStr "Bonjour") (JStr "English") (Some (JStr "")))))
  = ["Traduire ce texte en English:" ++ LF ++ "Bonjour"].
Proof.
  apply (@prompt_without_instructions OpenAI (stub_sdk JStr) _
           (mkFields (Some (JStr "Bonjour")) (Some (JStr "English"))
                     (Some (JStr ""))) "Bonjour" "English");
    reflexivity.
Defined.

(** C3.  For a request that passes validation and carries a non-empty
    (truthy) [instructions], exactly one prompt leaves for the vendor and it
    is "Instructions: {instructions}\n\nTraduire ce texte en
    {targetLanguage}:\n{text}".  For text "Bonjour", target language
    "English" and instructions "Be formal", on any endpoint and whatever the
    vendor does, that prompt is "Instructions: Be formal\n\nTraduire ce
    texte en English:\nBonjour". *)
Theorem prompt_with_instructions :
  (forall (p : provider) (sdk : SDK) (req_body : value) (f : Fields)
          (t l i : string),
      destructure req_body = Returns f ->
      truthy (f_text f) = true ->
      truthy (f_targetLanguage f) = true ->
      truthy (f_instructions f) = true ->
      ToString_value (f_text f) = Returns t ->
      ToString_value (f_targetLanguage f) = Returns l ->
      ToString_value (f_instructions f) = Returns i ->
      prompts_sent (snd (serve p sdk req_body))
      = ["Instructions: " ++ i ++ LF ++ LF ++
         "Traduire ce texte en " ++ l ++ ":" ++ LF ++ t]) /\
  (forall (p : provider) (sdk : SDK),
      prompts_sent
        (snd (serve p sdk
                (request_body (JStr "Bonjour") (JStr "English")
                              (Some (JStr "Be formal")))))
      = ["Instructions: Be formal" ++ LF ++ LF ++
         "Traduire ce texte en English:" ++ LF ++ "Bonjour"]).
Proof.
  assert (G : forall p sdk req_body f t l i,
             destructure req_body = Returns f ->
             truthy (f_text f) = true ->
             truthy (f_targetLanguage f) = true ->
             truthy (f_instructions f) = true ->
             ToString_value (f_text f) = Returns t ->
             ToString_value (f_targetLanguage f) = Returns l ->
             ToString_value (f_instructions f) = Returns i ->
             prompts_sent (snd (serve p sdk req_body))
             = ["Instructions: " ++ i ++ LF ++ LF ++
                "Traduire ce texte en " ++ l ++ ":" ++ LF ++ t]).
  { intros p sdk req_body f t l i H Ht Hl Hi Hst Hsl Hsi.
    rewrite prompts_sent_serve. unfold outbound_prompts.
    rewrite H, Ht, Hl. simpl.
    rewrite <- (build_prompt_gemini p), (prompt_instructed p f Hi Hsi Hsl Hst).
    reflexivity. }
  split; [exact G | ].
  intros p sdk.
  apply (G p sdk _ (mkFields (Some (JStr "Bonjour")) (Some (JStr "English"))
                             (Some (JStr "Be formal")))
           "Bonjour" "English" "Be formal"); reflexivity.
Qed.

Lemma prompt_with_instructions_witness :
  prompts_sent
    (snd (serve Gemini (failing_sdk "quota exceeded")
            (request_body (JNum (mkNumber "42")) (JStr "Deutsch")
                          (Some (JBool true)))))
  = ["Instructions: true" ++ LF ++ LF ++
     "Traduire ce texte en Deutsch:" ++ LF ++ "42"].
Proof.
  apply (proj1 prompt_with_instructions Gemini (failing_sdk "quota exceeded") _
           (mkFields (Some (JNum (mkNumber "42"))) (Some (JStr "Deutsch"))
                     (Some (JBool true)))
           "42" "Deutsch" "true");
    reflexivity.
Defined.

(** C4.  The prompt is built in the same way on all four endpoints: for
    every triple of fields the Gemini, Claude, OpenAI and DeepSeek handlers
    compute the same string (or fail alike), and for every body the prompts
    that leave for the vendor are the same whichever endpoint is called and
    whatever the vendors answer. *)
Theorem prompt_same_on_all_endpoints :
  (forall f : Fields,
      gemini_prompt f = claude_prompt f /\
      claude_prompt f = openai_prompt f /\
      openai_prompt f = deepseek_prompt f) /\
  (forall (p q : provider) (sdk sdk' : SDK) (req_body : value),
      prompts_sent (snd (serve p sdk req_body))
      = prompts_sent (snd (serve q sdk' req_body))).
Proof.
  split.
  - intros f. repeat split; reflexivity.
  - intros p q sdk sdk' req_body. now rewrite !prompts_sent_serve.
Qed.

(** ** Vendor failures and empty results *)

Lemma adapter_fallback (p : provider) (sdk : SDK) (prompt fallback : string) :
  placeholder p = Some fallback ->
  adapter p sdk prompt
  = and_then (extracted p sdk prompt)
             (fun v => Returns (or_else v (JStr fallback))).
Proof.
  destruct p; simpl; intros E; inversion E; subst; unfold and_then.
  - destruct (claudeClient sdk _); reflexivity.
  - destruct (openaiClient sdk _); reflexivity.
  - destruct (deepseekClient sdk _); reflexivity.
Qed.

Lemma adapter_gemini (sdk : SDK) (prompt : string) :
  and_then (adapter Gemini sdk prompt) (fun t => Returns (Some t))
  = extracted Gemini sdk prompt.
Proof.
  simpl. unfold and_then.
  destruct (geminiClient sdk _ prompt) as [r | e]; [ | reflexivity].
  destruct (response r) as [g | e]; [ | reflexivity].
  destruct (text g); reflexivity.
Qed.

Lemma or_else_falsy (v : value) (b : json) : truthy v = false -> or_else v b = b.
Proof. destruct v as [j | ]; simpl; [intros -> | ]; reflexivity. Qed.

Lemma or_else_truthy (j b : json) :
  json_truthy j = true -> or_else (Some j) b = j.
Proof. simpl. intros ->. reflexivity. Qed.

(** C5.  When the adapter throws or rejects on a valid request, the
    endpoint answers HTTP 500 with that provider's fixed message and nothing
    else: the answer is the same whatever the error was, so no vendor detail
    reaches the caller. *)
Theorem provider_failure_is_500 :
  (forall (p : provider) (sdk : SDK) (req_body : value) (f : Fields)
          (prompt : string) (e : error),
      valid_request p req_body f prompt ->
      adapter p sdk prompt = Throws e ->
      fst (serve p sdk req_body)
      = Returns (mkResponse 500 (JObj [("error", JStr (provider_error_message p))]))) /\
  map provider_error_message [Gemini; Claude; OpenAI; DeepSeek]
  = ["Erreur lors de la traduction via Gemini";
     "Erreur lors de la traduction via Claude";
     "Erreur lors de la traduction via OpenAI";
     "Erreur lors de la traduction via DeepSeek"].
Proof.
  split; [ | reflexivity].
  intros p sdk req_body f prompt e Hv He.
  rewrite (serve_valid sdk Hv), He. reflexivity.
Qed.

Lemma provider_failure_is_500_witness :
  fst (serve Claude (failing_sdk "401 invalid x-api-key")
         (request_body (JStr "Bonjour") (JStr "English") None))
  = Returns (mkResponse 500
      (JObj [("error", JStr "Erreur lors de la traduction via Claude")])).
Proof.
  apply (proj1 provider_failure_is_500 Claude
           (failing_sdk "401 invalid x-api-key") _
           (mkFields (Some (JStr "Bonjour")) (Some (JStr "English")) None)
           ("Traduire ce texte en English:" ++ LF ++ "Bonjour")
           (SdkError "401 invalid x-api-key")).
  - repeat split; reflexivity.
  - reflexivity.
Defined.

(** C6.  On the Claude, OpenAI and DeepSeek endpoints, when the vendor call
    succeeds and the extracted content is empty or absent (falsy), the
    endpoint answers HTTP 200 with the provider's placeholder as the
    translation: "(Aucune réponse Claude)", "(Aucune réponse GPT)" or
    "(Aucune réponse DeepSeek)". *)
Theorem empty_content_gets_placeholder :
  (forall (p : provider) (sdk : SDK) (req_body : value) (f : Fields)
          (prompt fallback : string) (v : value),
      valid_request p req_body f prompt ->
      placeholder p = Some fallback ->
      extracted p sdk prompt = Returns v ->
      truthy v = false ->
      fst (serve p sdk req_body)
      = Returns (mkResponse 200 (JObj [("translation", JStr fallback)]))) /\
  map placeholder [Claude; OpenAI; DeepSeek]
  = [Some "(Aucune réponse Claude)"; Some "(Aucune réponse GPT)";
     Some "(Aucune réponse DeepSeek)"].
Proof.
  split; [ | reflexivity].
  intros p sdk req_body f prompt fallback v Hv Hp Hx Hf.
  rewrite (serve_valid sdk Hv), (adapter_fallback p sdk prompt Hp), Hx.
  simpl. rewrite or_else_falsy by exact Hf. reflexivity.
Qed.

Lemma empty_content_gets_placeholder_witness :
  fst (serve OpenAI (stub_sdk (fun _ => JNull))
         (request_body (JStr "Bonjour") (JStr "English") None))
  = Returns (mkResponse 200 (JObj [("translation", JStr "(Aucune réponse GPT)")])).
Proof.
  apply (proj1 empty_content_gets_placeholder OpenAI
           (stub_sdk (fun _ => JNull)) _
           (mkFields (Some (JStr "Bonjour")) (Some (JStr "English")) None)
           ("Traduire ce texte en English:" ++ LF ++ "Bonjour")
           "(Aucune réponse GPT)" (Some JNull)).
  - repeat split; reflexivity.
  - reflexivity.
  - reflexivity.
  - reflexivity.
Defined.

(** C7.  The Gemini endpoint has no placeholder: whatever [text()] yields,
    the empty string included, is the translation of the 200 answer as it
    is, and when [text()] throws the error reaches the catch branch, which
    logs it and answers 500. *)
Theorem gemini_has_no_placeholder (sdk : SDK) (req_body : value) (f : Fields)
  (prompt : string) (result : GenerateContentResult)
  (generationResponse : GenerationResponse) :
  valid_request Gemini req_body f prompt ->
  geminiClient sdk "gemini-1.5-flash" prompt = Returns result ->
  response result = Returns generationResponse ->
  placeholder Gemini = None /\
  (forall translation : json,
      text generationResponse = Returns translation ->
      fst (serve Gemini sdk req_body)
      = Returns (mkResponse 200 (JObj [("translation", translation)]))) /\
  (forall e : error,
      text generationResponse = Throws e ->
      serve Gemini sdk req_body
      = (Returns (mkResponse 500
           (JObj [("error", JStr "Erreur lors de la traduction via Gemini")])),
         [GenerateContent "gemini-1.5-flash" prompt;
          ConsoleError "Erreur Gemini:" (error_message e)])).
Proof.
  intros Hv Hc Hr. split; [reflexivity | ].
  split; intros x Hx; rewrite (serve_valid sdk Hv); simpl;
    rewrite Hc; simpl; rewrite Hr; simpl; rewrite Hx; reflexivity.
Qed.

Lemma gemini_has_no_placeholder_witness :
  fst (serve Gemini (stub_sdk (fun _ => JStr ""))
         (request_body (JStr "Bonjour") (JStr "English") None))
  = Returns (mkResponse 200 (JObj [("translation", JStr "")])).
Proof.
  refine (proj1 (proj2
    (@gemini_has_no_placeholder (stub_sdk (fun _ => JStr "")) _
       (mkFields (Some (JStr "Bonjour")) (Some (JStr "English")) None)
       ("Traduire ce texte en English:" ++ LF ++ "Bonjour")
       (mkGenerateContentResult
          (Returns (mkGenerationResponse (Returns (JStr "")))))
       (mkGenerationResponse (Returns (JStr "")))
       _ _ _)) (JStr "") _).
  - repeat split; reflexivity.
  - reflexivity.
  - reflexivity.
  - reflexivity.
Defined.

(** ** Round trip *)

(** On string fields the handlers build what the specification's Prompt
    Builder builds. *)
Lemma build_prompt_refines (p : provider) (f : Fields) (t l : string)
  (i : option string) :
  f_text f = Some (JStr t) ->
  f_targetLanguage f = Some (JStr l) ->
  f_instructions f = option_map JStr i ->
  build_prompt p f = Returns (Prompt_Builder t l i).
Proof.
  intros Ht Hl Hi. destruct i as [[ | c i] | ]; simpl in Hi.
  - apply prompt_plain; rewrite ?Hi, ?Ht, ?Hl; reflexivity.
  - apply (@prompt_instructed p f t l (String c i));
      rewrite ?Hi, ?Ht, ?Hl; reflexivity.
  - apply prompt_plain; rewrite ?Hi, ?Ht, ?Hl; reflexivity.
Qed.

Lemma Prompt_Builder_truthy (t l : string) (i : option string) :
  json_truthy (JStr (Prompt_Builder t l i)) = true.
Proof. destruct i as [[ | c i] | ]; reflexivity. Qed.

(** C8.  Round trip: on a valid request with string fields, when the vendor
    hands the prompt back unchanged, the endpoint answers 200 and the
    translation is the prompt that the Prompt Builder gives for the same
    text, target language and instructions.  For the body
    [{"text":"Bonjour","targetLanguage":"English"}] and a stub that answers
    "Hello", the OpenAI endpoint answers 200 [{"translation":"Hello"}]. *)
Theorem echo_round_trip :
  (forall (p : provider) (sdk : SDK) (req_body : value) (f : Fields)
          (t l : string) (i : option string),
      destructure req_body = Returns f ->
      f_text f = Some (JStr t) -> t <> "" ->
      f_targetLanguage f = Some (JStr l) -> l <> "" ->
      f_instructions f = option_map JStr i ->
      extracted p sdk (Prompt_Builder t l i)
      = Returns (Some (JStr (Prompt_Builder t l i))) ->
      fst (serve p sdk req_body)
      = Returns (mkResponse 200
          (JObj [("translation", JStr (Prompt_Builder t l i))]))) /\
  fst (serve OpenAI (stub_sdk (fun _ => JStr "Hello"))
         (request_body (JStr "Bonjour") (JStr "English") None))
  = Returns (mkResponse 200 (JObj [("translation", JStr "Hello")])).
Proof.
  split; [ | reflexivity].
  intros p sdk req_body f t l i H Ht Hne Hl Hnl Hi Hecho.
  assert (Hv : valid_request p req_body f (Prompt_Builder t l i)).
  { repeat split; auto.
    - rewrite Ht. now apply truthy_string.
    - rewrite Hl. now apply truthy_string.
    - now apply build_prompt_refines. }
  rewrite (serve_valid sdk Hv).
  destruct (placeholder p) as [fallback | ] eqn:Hp.
  - rewrite (adapter_fallback p sdk _ Hp), Hecho. unfold and_then.
    rewrite or_else_truthy by apply Prompt_Builder_truthy. reflexivity.
  - destruct p; try discriminate Hp.
    pose proof (adapter_gemini sdk (Prompt_Builder t l i)) as G.
    rewrite Hecho in G.
    destruct (adapter Gemini sdk (Prompt_Builder t l i)); simpl in G;
      inversion G; reflexivity.
Qed.

Lemma echo_round_trip_witness :
  fst (serve Claude (stub_sdk JStr)
         (request_body (JStr "Bonjour") (JStr "English")
                       (Some (JStr "Be formal"))))
  = Returns (mkResponse 200
      (JObj [("translation",
              JStr (Prompt_Builder "Bonjour" "English" (Some "Be formal")))])).
Proof.
  apply (proj1 echo_round_trip Claude (stub_sdk JStr) _
           (mkFields (Some (JStr "Bonjour")) (Some (JStr "English"))
                     (Some (JStr "Be formal")))
           "Bonjour" "English" (Some "Be formal"));
    try reflexivity; discriminate.
Defined.

(** ** Truthiness and the shape of the answers *)

Lemma falsy_json (j : json) :
  json_truthy j = false <->
  j = JNull \/ j = JBool false \/ j = JStr "" \/
  exists n, j = JNum n /\
            (Number_toString n = "0" \/ Number_toString n = "NaN").
Proof.
  split.
  - destruct j as [ | b | n | s | xs | ps]; simpl; intros H.
    + auto.
    + subst b. auto.
    + right; right; right. exists n. split; [reflexivity | ].
      unfold Number_truthy in H. apply negb_false_iff, orb_true_iff in H.
      destruct H as [H | H]; apply String.eqb_eq in H; auto.
    + apply negb_false_iff, String.eqb_eq in H. subst s. auto.
    + discriminate.
    + discriminate.
  - intros [-> | [-> | [-> | (n & -> & H)]]]; try reflexivity.
    simpl. unfold Number_truthy. destruct H as [-> | ->]; reflexivity.
Qed.

(** C9.  The validation is JavaScript truthiness and not a test for the
    empty string: the falsy JSON values are [null], [false], the empty
    string and the numbers 0 and NaN, and a request whose [text] or
    [targetLanguage] holds any of them, the number 0 or the boolean [false]
    for instance, is answered 400 and reaches no vendor. *)
Theorem falsy_values_rejected :
  (forall j : json,
      json_truthy j = false <->
      j = JNull \/ j = JBool false \/ j = JStr "" \/
      exists n, j = JNum n /\
                (Number_toString n = "0" \/ Number_toString n = "NaN")) /\
  (forall (p : provider) (sdk : SDK) (req_body : value) (f : Fields) (j : json),
      destructure req_body = Returns f ->
      f_text f = Some j \/ f_targetLanguage f = Some j ->
      j = JNum zero \/ j = JBool false \/ json_truthy j = false ->
      fst (serve p sdk req_body)
      = Returns (mkResponse 400
          (JObj [("error", JStr "Champs text et targetLanguage requis.")])) /\
      provider_calls (snd (serve p sdk req_body)) = []).
Proof.
  split; [exact falsy_json | ].
  intros p sdk req_body f j H Hj Hfalsy.
  assert (F : json_truthy j = false).
  { destruct Hfalsy as [-> | [-> | E]]; auto. }
  assert (R : truthy (f_text f) = false \/ truthy (f_targetLanguage f) = false).
  { destruct Hj as [E | E]; rewrite E; simpl; auto. }
  rewrite (serve_rejected p sdk req_body H R). split; reflexivity.
Qed.

Lemma falsy_values_rejected_witness :
  fst (serve Gemini (stub_sdk JStr)
         (request_body (JNum zero) (JStr "English") None))
  = Returns (mkResponse 400
      (JObj [("error", JStr "Champs text et targetLanguage requis.")])) /\
  provider_calls
    (snd (serve Gemini (stub_sdk JStr)
            (request_body (JNum zero) (JStr "English") None))) = [].
Proof.
  apply (proj2 falsy_values_rejected Gemini (stub_sdk JStr) _
           (mkFields (Some (JNum zero)) (Some (JStr "English")) None)
           (JNum zero)).
  - reflexivity.
  - left. reflexivity.
  - left. reflexivity.
Defined.

Lemma translation_is_string (p : provider) (sdk : SDK) (prompt : string)
  (translation : json) :
  adapter p sdk prompt = Returns translation ->
  vendor_text_typed p sdk ->
  exists s, translation = JStr s.
Proof.
  intros Ha Hty. unfold vendor_text_typed in Hty.
  destruct (placeholder p) as [fallback | ] eqn:Hp.
  - rewrite (adapter_fallback p sdk prompt Hp) in Ha.
    destruct (extracted p sdk prompt) as [v | e] eqn:Hx; simpl in Ha;
      [ | discriminate].
    specialize (Hty prompt v Hx). inversion Ha; subst translation.
    destruct v as [[ | b | n | s | xs | ps] | ]; simpl in Hty;
      try discriminate; simpl; eauto.
    destruct (negb (String.eqb s "")); eauto.
  - destruct p; try discriminate Hp.
    pose proof (adapter_gemini sdk prompt) as G. rewrite Ha in G. simpl in G.
    symmetry in G. specialize (Hty prompt (Some translation) G).
    destruct translation; simpl in Hty; try discriminate; eauto.
Qed.

(** C10.  Every request gets an answer, and the answer has one of three
    shapes: 400 with [{"error": validation message}], 500 with
    [{"error": provider message}], or 200 with [{"translation": t}], where
    [t] is a string as soon as the vendor's text is typed as its SDK
    declares.  No answer holds both an [error] and a [translation] key, and
    no status other than 200, 400 and 500 is produced. *)
Theorem response_has_one_of_three_shapes (p : provider) (sdk : SDK)
  (req_body : value) :
  exists r : Response,
    fst (serve p sdk req_body) = Returns r /\
    (r = mkResponse 400
           (JObj [("error", JStr "Champs text et targetLanguage requis.")]) \/
     r = mkResponse 500 (JObj [("error", JStr (provider_error_message p))]) \/
     exists translation : json,
       r = mkResponse 200 (JObj [("translation", translation)]) /\
       (vendor_text_typed p sdk -> exists s, translation = JStr s)) /\
    has_key "error" (body r) = negb (has_key "translation" (body r)) /\
    In (status r) [200; 400; 500].
Proof.
  assert (S : exists r : Response,
    fst (serve p sdk req_body) = Returns r /\
    (r = validation_reply \/ r = error_reply p \/
     exists translation : json,
       r = translation_reply translation /\
       (vendor_text_typed p sdk -> exists s, translation = JStr s))).
  { destruct (destructure req_body) as [f | e] eqn:H.
    2: { rewrite (serve_no_body p sdk req_body H).
         eexists; split; [reflexivity | auto]. }
    destruct (truthy (f_text f)) eqn:Ht.
    2: { rewrite (@serve_rejected p sdk req_body f) by auto.
         eexists; split; [reflexivity | auto]. }
    destruct (truthy (f_targetLanguage f)) eqn:Hl.
    2: { rewrite (@serve_rejected p sdk req_body f) by auto.
         eexists; split; [reflexivity | auto]. }
    destruct (build_prompt p f) as [prompt | e] eqn:Hp.
    2: { rewrite (@serve_prompt_throws p sdk req_body f e) by auto.
         eexists; split; [reflexivity | auto]. }
    rewrite (@serve_valid p sdk req_body f prompt) by (repeat split; auto).
    destruct (adapter p sdk prompt) as [translation | e] eqn:Ha.
    - exists (translation_reply translation). split; [reflexivity | ].
      right; right. exists translation. split; [reflexivity | ].
      now apply translation_is_string with (prompt := prompt).
    - eexists; split; [reflexivity | auto]. }
  destruct S as (r & Hr & Hs). exists r. split; [exact Hr | ].
  split; [exact Hs | ].
  destruct Hs as [-> | [-> | (translation & -> & _)]]; simpl; auto.
Qed.

Lemma response_has_one_of_three_shapes_witness :
  exists s : string,
    fst (serve DeepSeek (stub_sdk (fun _ => JStr "Hello"))
           (request_body (JStr "Bonjour") (JStr "English") None))
    = Returns (mkResponse 200 (JObj [("translation", JStr s)])).
Proof.
  destruct (response_has_one_of_three_shapes DeepSeek
              (stub_sdk (fun _ => JStr "Hello"))
              (request_body (JStr "Bonjour") (JStr "English") None))
    as (r & Hr & [E | [E | (translation & E & Hty)]] & _);
    simpl in Hr; rewrite E in Hr; try discriminate Hr.
  assert (T : vendor_text_typed DeepSeek (stub_sdk (fun _ => JStr "Hello"))).
  { intros prompt v Hx. simpl in Hx. inversion Hx. reflexivity. }
  destruct (Hty T) as (s & Hs).
  exists s. rewrite Hs in Hr. exact Hr.
Defined.

(** ** The handlers as a whole *)

Lemma handler_answer (p : provider) (sdk : SDK) (req_body : value) (tr : trace) :
  handler p sdk req_body tr
  = (Returns (fst (answer p sdk req_body)),
     (tr ++ snd (answer p sdk req_body))%list).
Proof.
  unfold answer.
  destruct (destructure req_body) as [f | e] eqn:H.
  2: { destruct p; run_handler; rewrite H; reflexivity. }
  destruct (truthy (f_text f)) eqn:Ht; simpl andb.
  2: { destruct p; run_handler; rewrite H, Ht; simpl;
       rewrite app_nil_r; reflexivity. }
  destruct (truthy (f_targetLanguage f)) eqn:Hl.
  2: { destruct p; run_handler; rewrite H, Ht, Hl; simpl;
       rewrite app_nil_r; reflexivity. }
  destruct (build_prompt p f) as [prompt | e] eqn:Hp.
  2: { destruct p; simpl in Hp; run_handler; rewrite H, Ht, Hl; simpl;
       rewrite Hp; reflexivity. }
  destruct p; simpl in Hp; run_handler; rewrite H, Ht, Hl; simpl;
    rewrite Hp; simpl; unfold adapter, and_then.
  - destruct (geminiClient sdk _ prompt) as [r | e];
      [ | simpl; rewrite <- app_assoc; reflexivity].
    destruct (response r) as [g | e];
      [ | simpl; rewrite <- app_assoc; reflexivity].
    destruct (text g); simpl; rewrite <- ?app_assoc; reflexivity.
  - destruct (claudeClient sdk _) as [r | e];
      [ | simpl; rewrite <- app_assoc; reflexivity].
    destruct (claude_extract r); simpl; rewrite <- ?app_assoc; reflexivity.
  - destruct (openaiClient sdk _) as [r | e];
      [ | simpl; rewrite <- app_assoc; reflexivity].
    destruct (choices_extract r); simpl; rewrite <- ?app_assoc; reflexivity.
  - destruct (deepseekClient sdk _) as [r | e];
      [ | simpl; rewrite <- app_assoc; reflexivity].
    destruct (choices_extract r); simpl; rewrite <- ?app_assoc; reflexivity.
Qed.

Lemma serve_answer (p : provider) (sdk : SDK) (req_body : value) :
  serve p sdk req_body
  = (Returns (fst (answer p sdk req_body)), snd (answer p sdk req_body)).
Proof. unfold serve. rewrite handler_answer. reflexivity. Qed.

Lemma is_provider_call_event (p : provider) (prompt : string) :
  is_provider_call (call_event p prompt) = true.
Proof. destruct p; reflexivity. Qed.

Lemma console_lines_call (p : provider) (prompt : string) (rest : trace) :
  console_lines (call_event p prompt :: rest) = console_lines rest.
Proof. destruct p; reflexivity. Qed.

Lemma adapter_same_client (p : provider) (a b : SDK) (prompt : string) :
  same_client p a b -> adapter p a prompt = adapter p b prompt.
Proof.
  destruct p; simpl; intros H; rewrite H; reflexivity.
Qed.

(** X1.  The four handlers are instances of one scheme: whatever the
    provider, the vendor behaviour, the body and the effects so far, the
    handler of the endpoint and the generic handler give the same answer
    and the same effects. *)
Theorem handlers_follow_one_scheme (p : provider) (sdk : SDK)
  (req_body : value) (tr : trace) :
  handler p sdk req_body tr = generic_translate p sdk req_body tr.
Proof.
  rewrite handler_answer.
  unfold answer, generic_translate, Run.try_catch, Run.bind, Run.call,
    Run.lift, Run.emit, Run.ret.
  destruct (destructure req_body) as [f | e]; [ | reflexivity].
  destruct (truthy (f_text f)); simpl;
    [ | rewrite app_nil_r; reflexivity].
  destruct (truthy (f_targetLanguage f)); simpl;
    [ | rewrite app_nil_r; reflexivity].
  destruct (build_prompt p f) as [prompt | e]; [ | reflexivity].
  destruct (adapter p sdk prompt); simpl; rewrite <- ?app_assoc; reflexivity.
Qed.


(** X3.  An endpoint consults its own client only: two SDKs that agree on
    the client of the endpoint give the same answer and the same effects,
    however the other three clients behave. *)
Theorem endpoint_uses_its_own_client (p : provider) (a b : SDK)
  (req_body : value) :
  same_client p a b ->
  serve p a req_body = serve p b req_body.
Proof.
  intros H. rewrite !serve_answer. unfold answer.
  destruct (destructure req_body) as [f | e]; [ | reflexivity].
  destruct (truthy (f_text f) && truthy (f_targetLanguage f));
    [ | reflexivity].
  destruct (build_prompt p f) as [prompt | e]; [ | reflexivity].
  rewrite (adapter_same_client p a b prompt H). reflexivity.
Qed.

Lemma endpoint_uses_its_own_client_witness :
  serve DeepSeek
    (mkSDK (geminiClient (failing_sdk "down"))
           (claudeClient (failing_sdk "down"))
           (openaiClient (failing_sdk "down"))
           (deepseekClient (stub_sdk JStr)))
    (request_body (JStr "Bonjour") (JStr "English") None)
  = serve DeepSeek (stub_sdk JStr)
      (request_body (JStr "Bonjour") (JStr "English") None).
Proof.
  apply endpoint_uses_its_own_client. simpl. intros r. reflexivity.
Defined.

(** X4.  A request causes at most one vendor call, never a second try: the
    outbound calls of a run are the call of the endpoint's own provider
    with the prompt of the body, once, or none at all when the body does
    not yield a prompt; whether the vendor then fails makes no
    difference. *)
Theorem at_most_one_outbound_call (p : provider) (sdk : SDK)
  (req_body : value) :
  provider_calls (snd (serve p sdk req_body))
  = map (call_event p) (outbound_prompts req_body) /\
  length (outbound_prompts req_body) <= 1.
Proof.
  rewrite serve_answer. unfold answer, outbound_prompts.
  destruct (destructure req_body) as [f | e]; [ | split; auto].
  destruct (truthy (f_text f) && truthy (f_targetLanguage f));
    [ | split; auto].
  rewrite build_prompt_gemini.
  destruct (gemini_prompt f) as [prompt | e]; [ | split; auto].
  destruct (adapter p sdk prompt); simpl; unfold provider_calls; simpl;
    rewrite is_provider_call_event; split; auto.
Qed.

(** X5.  The console gets a line exactly when the answer is 500: then one
    line, under the label of the endpoint's provider; a 200 or a 400
    answer writes nothing. *)
Theorem console_line_iff_500 (p : provider) (sdk : SDK) (req_body : value) :
  exists r : Response,
    fst (serve p sdk req_body) = Returns r /\
    ((status r = 500 /\
      exists message : string,
        console_lines (snd (serve p sdk req_body))
        = [(console_label p, message)]) \/
     (status r <> 500 /\ console_lines (snd (serve p sdk req_body)) = [])).
Proof.
  rewrite serve_answer. eexists. split; [reflexivity | ].
  unfold answer.
  destruct (destructure req_body) as [f | e].
  2: { left. simpl. eauto. }
  destruct (truthy (f_text f) && truthy (f_targetLanguage f)).
  2: { right. simpl. split; [discriminate | reflexivity]. }
  destruct (build_prompt p f) as [prompt | e].
  2: { left. simpl. eauto. }
  destruct (adapter p sdk prompt); simpl snd; rewrite console_lines_call.
  - right. simpl. split; [discriminate | reflexivity].
  - left. simpl. eauto.
Qed.

(** X6.  The answer is 400 exactly when the body destructures and [text]
    or [targetLanguage] is falsy: nothing else, neither [instructions] nor
    the vendor, can cause or prevent a 400. *)
Theorem status_400_iff (p : provider) (sdk : SDK) (req_body : value) :
  (exists r, fst (serve p sdk req_body) = Returns r /\ status r = 400) <->
  (exists f, destructure req_body = Returns f /\
             (truthy (f_text f) = false \/
              truthy (f_targetLanguage f) = false)).
Proof.
  rewrite serve_answer. unfold answer. simpl fst.
  destruct (destructure req_body) as [f | e].
  - destruct (truthy (f_text f)) eqn:Ht; simpl andb.
    + destruct (truthy (f_targetLanguage f)) eqn:Hl.
      * split.
        -- intros (r & Hr & Hs). exfalso. inversion Hr; subst r; clear Hr.
           destruct (build_prompt p f) as [prompt | e];
             [destruct (adapter p sdk prompt) | ]; discriminate Hs.
        -- intros (f' & E & [F | F]); inversion E; subst f'; congruence.
      * split; [ | eauto]. intros _. exists f. auto.
    + split; [ | eauto]. intros _. exists f. auto.
  - split.
    + intros (r & Hr & Hs). inversion Hr; subst r. discriminate Hs.
    + intros (f & E & _). discriminate E.
Qed.

(** X7.  The answer is 200 exactly when the request is valid, its prompt
    could be built and the adapter returned; the translation is then what
    the adapter returned. *)
Theorem status_200_iff (p : provider) (sdk : SDK) (req_body : value)
  (r : Response) :
  (fst (serve p sdk req_body) = Returns r /\ status r = 200) <->
  (exists f prompt translation,
      valid_request p req_body f prompt /\
      adapter p sdk prompt = Returns translation /\
      r = translation_reply translation).
Proof.
  split.
  - rewrite serve_answer. unfold answer. simpl fst. intros (Hr & Hs).
    inversion Hr; subst r; clear Hr.
    destruct (destructure req_body) as [f | e] eqn:H; [ | discriminate Hs].
    destruct (truthy (f_text f)) eqn:Ht; [ | discriminate Hs].
    destruct (truthy (f_targetLanguage f)) eqn:Hl; [ | discriminate Hs].
    simpl in *.
    destruct (build_prompt p f) as [prompt | e] eqn:Hp; [ | discriminate Hs].
    destruct (adapter p sdk prompt) as [t | e] eqn:Ha; [ | discriminate Hs].
    exists f, prompt, t. repeat split; auto.
  - intros (f & prompt & t & Hv & Ha & ->).
    rewrite (serve_valid sdk Hv), Ha. split; reflexivity.
Qed.

(** ** What the chat endpoints read in an envelope *)

Lemma adapter_chat (p : provider) (sdk : SDK) (prompt fallback : string)
  (call : outcome value) :
  placeholder p = Some fallback ->
  chat_client p sdk prompt = Some call ->
  adapter p sdk prompt
  = and_then call (fun envelope =>
      and_then (chat_extract p envelope) (fun v =>
        Returns (or_else v (JStr fallback)))).
Proof.
  destruct p; simpl; intros E C; inversion E; inversion C; reflexivity.
Qed.

Lemma chat_extract_first (p : provider) (o first : json) (rest : list json) :
  get o (chat_key p) = Some (JArr (first :: rest)) ->
  chat_extract p (Some o) = Returns (first_element_text p first).
Proof.
  intros H.
  assert (N : o <> JNull) by (intros ->; discriminate H).
  destruct p; simpl in *; unfold claude_extract, choices_extract, member;
    destruct o; try congruence; rewrite H; reflexivity.
Qed.

Lemma chat_extract_throws_iff (p : provider) (envelope : value) :
  (exists e, chat_extract p envelope = Throws e) <->
  envelope = None \/ envelope = Some JNull.
Proof.
  split.
  - intros (e & H).
    destruct envelope as [[ | b | n | s | xs | ps] | ]; auto;
      destruct p; discriminate H.
  - intros [-> | ->]; destruct p; simpl;
      unfold claude_extract, choices_extract; simpl; eauto.
Qed.

(** X8.  On the Claude, OpenAI and DeepSeek endpoints a non-empty (truthy)
    extracted content is the translation as it is: nothing is trimmed,
    converted or replaced. *)
Theorem content_returned_unchanged (p : provider) (sdk : SDK)
  (req_body : value) (f : Fields) (prompt fallback : string) (j : json) :
  valid_request p req_body f prompt ->
  placeholder p = Some fallback ->
  extracted p sdk prompt = Returns (Some j) ->
  json_truthy j = true ->
  fst (serve p sdk req_body)
  = Returns (mkResponse 200 (JObj [("translation", j)])).
Proof.
  intros Hv Hp Hx Hj.
  rewrite (serve_valid sdk Hv), (adapter_fallback p sdk prompt Hp), Hx.
  unfold and_then. rewrite or_else_truthy by exact Hj. reflexivity.
Qed.

Lemma content_returned_unchanged_witness :
  fst (serve Claude (stub_sdk (fun _ => JStr "  Hello "))
         (request_body (JStr "Bonjour") (JStr "English") None))
  = Returns (mkResponse 200 (JObj [("translation", JStr "  Hello ")])).
Proof.
  apply (@content_returned_unchanged Claude
           (stub_sdk (fun _ => JStr "  Hello ")) _
           (mkFields (Some (JStr "Bonjour")) (Some (JStr "English")) None)
           ("Traduire ce texte en English:" ++ LF ++ "Bonjour")
           "(Aucune réponse Claude)" (JStr "  Hello ")).
  - repeat split; reflexivity.
  - reflexivity.
  - reflexivity.
  - reflexivity.
Defined.

(** X9.  A chat endpoint reads the first element of the list only
    ([content] for Claude, [choices] for OpenAI and DeepSeek): the
    translation is decided by that element, whatever follows it and
    whatever else the envelope holds.  When the first element has no text,
    the placeholder is answered even if a later element has one. *)
Theorem only_first_element_is_read (p : provider) (sdk : SDK)
  (req_body : value) (f : Fields) (prompt fallback : string)
  (o first : json) (rest : list json) :
  valid_request p req_body f prompt ->
  placeholder p = Some fallback ->
  chat_client p sdk prompt = Some (Returns (Some o)) ->
  get o (chat_key p) = Some (JArr (first :: rest)) ->
  fst (serve p sdk req_body)
  = Returns (mkResponse 200
      (JObj [("translation",
              or_else (first_element_text p first) (JStr fallback))])).
Proof.
  intros Hv Hp Hc Hg.
  rewrite (serve_valid sdk Hv), (adapter_chat p sdk prompt Hp Hc).
  simpl and_then. rewrite (chat_extract_first p o Hg). reflexivity.
Qed.

Lemma only_first_element_is_read_witness :
  fst (serve Claude
         (mkSDK (geminiClient (failing_sdk "down"))
                (fun _ => Returns (Some (JObj
                   [("content",
                     JArr [JObj [("type", JStr "tool_use")];
                           JObj [("type", JStr "text");
                                 ("text", JStr "Hello")]])])))
                (openaiClient (failing_sdk "down"))
                (deepseekClient (failing_sdk "down")))
         (request_body (JStr "Bonjour") (JStr "English") None))
  = Returns (mkResponse 200
      (JObj [("translation", JStr "(Aucune réponse Claude)")])).
Proof.
  refine (@only_first_element_is_read Claude _ _
            (mkFields (Some (JStr "Bonjour")) (Some (JStr "English")) None)
            ("Traduire ce texte en English:" ++ LF ++ "Bonjour")
            "(Aucune réponse Claude)"
            (JObj [("content",
                    JArr [JObj [("type", JStr "tool_use")];
                          JObj [("type", JStr "text");
                                ("text", JStr "Hello")]])])
            (JObj [("type", JStr "tool_use")])
            [JObj [("type", JStr "text"); ("text", JStr "Hello")]]
            _ _ _ _).
  - repeat split; reflexivity.
  - reflexivity.
  - reflexivity.
  - reflexivity.
Defined.

(** X10.  When the call of a chat endpoint resolves, the answer is 500
    exactly when the envelope is [undefined] or [null]; any other envelope,
    however it is shaped, gets a 200 answer. *)
Theorem resolved_call_500_iff_no_envelope (p : provider) (sdk : SDK)
  (req_body : value) (f : Fields) (prompt fallback : string)
  (envelope : value) :
  valid_request p req_body f prompt ->
  placeholder p = Some fallback ->
  chat_client p sdk prompt = Some (Returns envelope) ->
  (fst (serve p sdk req_body) = Returns (error_reply p) <->
   envelope = None \/ envelope = Some JNull) /\
  (exists r, fst (serve p sdk req_body) = Returns r /\
             (status r = 200 \/ status r = 500)).
Proof.
  intros Hv Hp Hc.
  rewrite (serve_valid sdk Hv), (adapter_chat p sdk prompt Hp Hc).
  simpl and_then.
  destruct (chat_extract p envelope) as [v | e] eqn:Hx; simpl.
  - split; [ | eexists; split; [reflexivity | left; reflexivity]].
    split; [discriminate | ].
    intros H. apply chat_extract_throws_iff with (p := p) in H.
    destruct H as (e & H). congruence.
  - split; [ | eexists; split; [reflexivity | right; reflexivity]].
    split; [ | reflexivity].
    intros _. apply (chat_extract_throws_iff p). eauto.
Qed.

Lemma resolved_call_500_iff_no_envelope_witness :
  fst (serve OpenAI
         (mkSDK (geminiClient (failing_sdk "down"))
                (claudeClient (failing_sdk "down"))
                (fun _ => Returns (Some JNull))
                (deepseekClient (failing_sdk "down")))
         (request_body (JStr "Bonjour") (JStr "English") None))
  = Returns (error_reply OpenAI).
Proof.
  refine (proj2 (proj1 (@resolved_call_500_iff_no_envelope OpenAI _ _
            (mkFields (Some (JStr "Bonjour")) (Some (JStr "English")) None)
            ("Traduire ce texte en English:" ++ LF ++ "Bonjour")
            "(Aucune réponse GPT)" (Some JNull) _ _ _)) _).
  - repeat split; reflexivity.
  - reflexivity.
  - reflexivity.
  - right. reflexivity.
Defined.

(** ** Prompts, further *)

Lemma string_app_assoc (a b c : string) : (a ++ b) ++ c = a ++ (b ++ c).
Proof. induction a as [ | x a IH]; simpl; [ | rewrite IH]; reflexivity. Qed.

Lemma string_app_fixpoint (a s : string) : a ++ s = a -> s = "".
Proof.
  induction a as [ | x a IH]; simpl; intros H; [exact H | ].
  inversion H; auto.
Qed.

(** A prompt that was built is one of the two templates. *)
Lemma build_prompt_inv (p : provider) (f : Fields) (s : string) :
  build_prompt p f = Returns s ->
  exists l t,
    ToString_value (f_targetLanguage f) = Returns l /\
    ToString_value (f_text f) = Returns t /\
    ((truthy (f_instructions f) = false /\
      s = "Traduire ce texte en " ++ l ++ ":" ++ LF ++ t) \/
     (truthy (f_instructions f) = true /\
      exists i, ToString_value (f_instructions f) = Returns i /\
                s = "Instructions: " ++ i ++ LF ++ LF ++
                    "Traduire ce texte en " ++ l ++ ":" ++ LF ++ t)).
Proof.
  rewrite build_prompt_gemini. unfold gemini_prompt.
  destruct (truthy (f_instructions f)) eqn:Hi; cbn [template].
  - destruct (ToString_value (f_instructions f)) as [i | e]; [ | discriminate].
    destruct (ToString_value (f_targetLanguage f)) as [l | e]; [ | discriminate].
    destruct (ToString_value (f_text f)) as [t | e]; [ | discriminate].
    intros H. inversion H. exists l, t. repeat split. right.
    split; [reflexivity | ]. exists i. split; [reflexivity | ].
    cbn. rewrite append_empty_r. reflexivity.
  - destruct (ToString_value (f_targetLanguage f)) as [l | e]; [ | discriminate].
    destruct (ToString_value (f_text f)) as [t | e]; [ | discriminate].
    intros H. inversion H. exists l, t. repeat split. left.
    split; [reflexivity | ]. cbn. rewrite append_empty_r. reflexivity.
Qed.

(** X11.  A prompt built with instructions and a prompt built without are
    never the same string, whatever the fields hold: the one begins with
    "Instructions: ", the other with "Traduire ce texte en ". *)
Theorem prompt_forms_never_collide (p q : provider) (f g : Fields)
  (s s' : string) :
  truthy (f_instructions f) = true ->
  truthy (f_instructions g) = false ->
  build_prompt p f = Returns s ->
  build_prompt q g = Returns s' ->
  s <> s'.
Proof.
  intros Hf Hg Hs Hs'.
  apply build_prompt_inv in Hs. apply build_prompt_inv in Hs'.
  destruct Hs as (l & t & _ & _ & [(C & _) | (_ & i & _ & ->)]);
    [congruence | ].
  destruct Hs' as (l' & t' & _ & _ & [(_ & ->) | (C & _)]);
    [ | congruence].
  simpl. discriminate.
Qed.

Lemma prompt_forms_never_collide_witness :
  "Instructions: Be formal" ++ LF ++ LF ++
  "Traduire ce texte en English:" ++ LF ++ "Bonjour"
  <> "Traduire ce texte en English:" ++ LF ++ "Bonjour".
Proof.
  apply (@prompt_forms_never_collide Claude OpenAI
           (mkFields (Some (JStr "Bonjour")) (Some (JStr "English"))
                     (Some (JStr "Be formal")))
           (mkFields (Some (JStr "Bonjour")) (Some (JStr "English")) None));
    reflexivity.
Defined.

Lemma outbound_plain (t l : string) :
  t <> "" -> l <> "" ->
  outbound_prompts (request_body (JStr t) (JStr l) None)
  = ["Traduire ce texte en " ++ l ++ ":" ++ LF ++ t].
Proof.
  intros Ht Hl. unfold outbound_prompts.
  change (destructure (request_body (JStr t) (JStr l) None))
    with (Returns (mkFields (Some (JStr t)) (Some (JStr l)) None)).
  cbn [f_text f_targetLanguage].
  apply truthy_string in Ht. apply truthy_string in Hl. rewrite Ht, Hl.
  simpl andb. cbv iota.
  rewrite <- (build_prompt_gemini Gemini).
  rewrite (@prompt_plain Gemini _ t l); reflexivity.
Qed.

(** X12.  Nothing is escaped, so the prompt does not tell the fields
    apart: a request whose target language is [a ++ ":\n" ++ b] with text
    [c] and the different request whose target language is [a] with text
    [b ++ ":\n" ++ c] send the same prompt. *)
Theorem prompt_is_not_injective (p : provider) (sdk : SDK) (a b c : string) :
  a <> "" -> c <> "" ->
  request_body (JStr c) (JStr (a ++ ":" ++ LF ++ b)) None
  <> request_body (JStr (b ++ ":" ++ LF ++ c)) (JStr a) None /\
  prompts_sent
    (snd (serve p sdk (request_body (JStr c) (JStr (a ++ ":" ++ LF ++ b)) None)))
  = ["Traduire ce texte en " ++ a ++ ":" ++ LF ++ b ++ ":" ++ LF ++ c] /\
  prompts_sent
    (snd (serve p sdk (request_body (JStr (b ++ ":" ++ LF ++ c)) (JStr a) None)))
  = ["Traduire ce texte en " ++ a ++ ":" ++ LF ++ b ++ ":" ++ LF ++ c].
Proof.
  intros Ha Hc. split; [ | split].
  - unfold request_body. intros E. inversion E as [[E1 E2]].
    apply string_app_fixpoint in E2. discriminate E2.
  - rewrite prompts_sent_serve, outbound_plain; auto.
    + rewrite !string_app_assoc. reflexivity.
    + destruct a; simpl; discriminate.
  - rewrite prompts_sent_serve, outbound_plain; auto.
    destruct b; simpl; discriminate.
Qed.

Lemma prompt_is_not_injective_witness :
  request_body (JStr "y") (JStr ("en" ++ ":" ++ LF ++ "x")) None
  <> request_body (JStr ("x" ++ ":" ++ LF ++ "y")) (JStr "en") None /\
  prompts_sent
    (snd (serve Gemini (stub_sdk JStr)
            (request_body (JStr "y") (JStr ("en" ++ ":" ++ LF ++ "x")) None)))
  = ["Traduire ce texte en " ++ "en" ++ ":" ++ LF ++ "x" ++ ":" ++ LF ++ "y"] /\
  prompts_sent
    (snd (serve Gemini (stub_sdk JStr)
            (request_body (JStr ("x" ++ ":" ++ LF ++ "y")) (JStr "en") None)))
  = ["Traduire ce texte en " ++ "en" ++ ":" ++ LF ++ "x" ++ ":" ++ LF ++ "y"].
Proof.
  apply (@prompt_is_not_injective Gemini (stub_sdk JStr) "en" "x" "y");
    discriminate.
Defined.

(** ** Fields that cannot be converted *)

Lemma ToString_arr (xs : list json) :
  ToString (JArr xs) = join_elements true xs.
Proof. reflexivity. Qed.

Lemma convertible_arr (xs : list json) :
  convertible (JArr xs) = forallb convertible xs.
Proof.
  induction xs as [ | x xs IH]; [reflexivity | ].
  simpl in *. rewrite IH. reflexivity.
Qed.

Lemma join_elements_converts (xs : list json) :
  Forall converts xs ->
  forall first : bool,
    (forallb convertible xs = true /\
     exists s, join_elements first xs = Returns s) \/
    (forallb convertible xs = false /\
     join_elements first xs = Throws cannot_convert).
Proof.
  induction 1 as [ | x xs Hx _ IH]; intros first.
  - left. simpl. eauto.
  - assert (E : (convertible x = true /\
                 exists s, match x with
                           | JNull => Returns ""
                           | _ => ToString x
                           end = Returns s) \/
                (convertible x = false /\
                 match x with
                 | JNull => Returns ""
                 | _ => ToString x
                 end = Throws cannot_convert)).
    { destruct x; try exact Hx. left. simpl. eauto. }
    cbn [join_elements forallb].
    destruct E as [(C & s & ->) | (C & ->)]; rewrite C; simpl andb.
    + destruct (IH false) as [(D & r & ->) | (D & ->)]; rewrite D.
      * left. eauto.
      * right. auto.
    + right. auto.
Qed.

Lemma ToString_converts (j : json) : converts j.
Proof.
  induction j as [ | b | n | s | xs IH | ps] using json_elements_ind.
  - left. simpl. eauto.
  - left. destruct b; simpl; eauto.
  - left. simpl. eauto.
  - left. simpl. eauto.
  - unfold converts. rewrite ToString_arr, convertible_arr.
    apply join_elements_converts. exact IH.
  - unfold converts. simpl. destruct (has_own "toString" ps); simpl; eauto.
Qed.

Lemma ToString_value_converts (v : value) :
  (convertible_value v = true /\ exists s, ToString_value v = Returns s) \/
  (convertible_value v = false /\ ToString_value v = Throws cannot_convert).
Proof.
  destruct v as [j | ]; [apply ToString_converts | ].
  left. simpl. eauto.
Qed.

Lemma unconvertible_is_truthy (v : value) :
  convertible_value v = false -> truthy v = true.
Proof.
  destruct v as [[ | b | n | s | xs | ps] | ]; simpl; try discriminate;
    reflexivity.
Qed.

Lemma build_prompt_throws_iff (p : provider) (f : Fields) :
  (exists e, build_prompt p f = Throws e) <-> fields_convertible f = false.
Proof.
  rewrite build_prompt_gemini. unfold gemini_prompt, fields_convertible.
  destruct (ToString_value_converts (f_text f)) as [(Ct & t & Et) | (Ct & Et)];
  destruct (ToString_value_converts (f_targetLanguage f))
    as [(Cl & l & El) | (Cl & El)];
  destruct (ToString_value_converts (f_instructions f))
    as [(Ci & i & Ei) | (Ci & Ei)];
  rewrite Ct, Cl, Ci; simpl andb;
  try (apply unconvertible_is_truthy in Ci; rewrite Ci);
  destruct (truthy (f_instructions f)); cbn [template];
  rewrite ?Et, ?El, ?Ei;
  (split; [intros (e & H); (discriminate H || reflexivity)
          | intros H; (discriminate H || eauto)]).
Qed.

(** X13.  A request that passes validation is answered 500 without any
    vendor call exactly when one of its three fields cannot be converted
    to a string: it is, or holds in nested arrays, an object with an own
    [toString] property. *)
Theorem unconvertible_field_iff (p : provider) (sdk : SDK) (req_body : value)
  (f : Fields) :
  destructure req_body = Returns f ->
  truthy (f_text f) = true ->
  truthy (f_targetLanguage f) = true ->
  (fst (serve p sdk req_body) = Returns (error_reply p) /\
   provider_calls (snd (serve p sdk req_body)) = []) <->
  fields_convertible f = false.
Proof.
  intros H Ht Hl. split.
  - intros (_ & Hc).
    destruct (fields_convertible f) eqn:C; [exfalso | reflexivity].
    destruct (build_prompt p f) as [prompt | e] eqn:Hp.
    + rewrite (@serve_valid p sdk req_body f prompt) in Hc
        by (repeat split; auto).
      unfold provider_calls in Hc.
      destruct (adapter p sdk prompt); simpl in Hc;
        rewrite is_provider_call_event in Hc; discriminate Hc.
    + assert (E : exists e, build_prompt p f = Throws e) by eauto.
      apply build_prompt_throws_iff in E. congruence.
  - intros C. apply build_prompt_throws_iff with (p := p) in C.
    destruct C as (e & Hp).
    rewrite (serve_prompt_throws p sdk req_body H Ht Hl Hp).
    split; reflexivity.
Qed.

Lemma unconvertible_field_iff_witness :
  fst (serve OpenAI (stub_sdk JStr)
         (request_body (JStr "Bonjour")
            (JArr [JStr "English"; JArr [JObj [("toString", JBool true)]]])
            None))
  = Returns (error_reply OpenAI) /\
  provider_calls
    (snd (serve OpenAI (stub_sdk JStr)
            (request_body (JStr "Bonjour")
               (JArr [JStr "English"; JArr [JObj [("toString", JBool true)]]])
               None)))
  = [].
Proof.
  refine (proj2 (@unconvertible_field_iff OpenAI (stub_sdk JStr)
            (request_body (JStr "Bonjour")
               (JArr [JStr "English"; JArr [JObj [("toString", JBool true)]]])
               None)
            (mkFields (Some (JStr "Bonjour"))
               (Some (JArr [JStr "English";
                            JArr [JObj [("toString", JBool true)]]]))
               None)
            _ _ _) _); reflexivity.
Defined.

(** ** The two applications *)

Lemma translate_route_run (p : provider) (sdk : SDK) (req_body : value) :
  translate_route p sdk req_body [] = json_reply (serve p sdk req_body).
Proof.
  unfold translate_route, Run.bind, Run.ret. rewrite serve_answer.
  rewrite handler_answer. reflexivity.
Qed.

(** X14.  The second copy of the server takes every request the first one
    takes and answers it alike, however Express matches patterns against
    paths. *)
Theorem second_copy_extends_first (path_matches : string -> string -> bool)
  (sdk : SDK) (m : method) (path : string) (req_body : value)
  (res : outcome Reply * trace) :
  handle path_matches app_3001 sdk m path req_body = Some res ->
  handle path_matches app_3002 sdk m path req_body = Some res.
Proof.
  unfold handle, app_3001, app_3002. cbn [dispatch route_method route_pattern
    route_handler].
  destruct (method_eqb m GET && path_matches "/" path); [auto | ].
  destruct (method_eqb m POST && path_matches "/api/translate/gemini" path);
    [auto | ].
  destruct (method_eqb m POST && path_matches "/api/translate/claude" path);
    [auto | ].
  destruct (method_eqb m POST && path_matches "/api/translate/openai" path);
    [auto | ].
  discriminate.
Qed.

Lemma second_copy_extends_first_witness :
  handle String.eqb app_3002 (stub_sdk JStr) POST "/api/translate/claude"
    (request_body (JStr "Bonjour") (JStr "English") None)
  = Some (Returns (Json (translation_reply
            (JStr ("Traduire ce texte en English:" ++ LF ++ "Bonjour")))),
          [ChatCreate Claude
             (claude_request
                ("Traduire ce texte en English:" ++ LF ++ "Bonjour"))]).
Proof.
  apply (@second_copy_extends_first String.eqb (stub_sdk JStr) POST
           "/api/translate/claude"
           (request_body (JStr "Bonjour") (JStr "English") None)).
  reflexivity.
Defined.

(** X15.  The DeepSeek route exists in the second copy only: a POST whose
    path matches the DeepSeek pattern and none of the other three is left
    to Express by the first copy and answered by the DeepSeek handler in
    the second. *)
Theorem deepseek_route_in_second_copy_only
  (path_matches : string -> string -> bool) (sdk : SDK) (path : string)
  (req_body : value) :
  path_matches "/api/translate/gemini" path = false ->
  path_matches "/api/translate/claude" path = false ->
  path_matches "/api/translate/openai" path = false ->
  path_matches "/api/translate/deepseek" path = true ->
  handle path_matches app_3001 sdk POST path req_body = None /\
  handle path_matches app_3002 sdk POST path req_body
  = Some (json_reply (serve DeepSeek sdk req_body)).
Proof.
  intros G C O D. unfold handle, app_3001, app_3002.
  cbn [dispatch route_method route_pattern route_handler method_eqb andb].
  rewrite G, C, O, D. split; [reflexivity | ].
  rewrite translate_route_run. reflexivity.
Qed.

Lemma deepseek_route_in_second_copy_only_witness :
  handle String.eqb app_3001 (stub_sdk JStr) POST "/api/translate/deepseek"
    (request_body (JStr "Bonjour") (JStr "English") None) = None /\
  handle String.eqb app_3002 (stub_sdk JStr) POST "/api/translate/deepseek"
    (request_body (JStr "Bonjour") (JStr "English") None)
  = Some (json_reply (serve DeepSeek (stub_sdk JStr)
            (request_body (JStr "Bonjour") (JStr "English") None))).
Proof.
  apply (@deepseek_route_in_second_copy_only String.eqb (stub_sdk JStr)
           "/api/translate/deepseek"); reflexivity.
Defined.

(** X16.  A GET request never reaches a vendor and never looks at a body
    or writes to the console: if an application takes it at all, the
    answer is the liveness text with status 200 and there is no effect. *)
Theorem get_has_no_effect (path_matches : string -> string -> bool)
  (app : list Route) (sdk : SDK) (path : string) (req_body : value)
  (res : outcome Reply * trace) :
  app = app_3001 \/ app = app_3002 ->
  handle path_matches app sdk GET path req_body = Some res ->
  res = (Returns (Sent 200 "Backend de traduction opérationnel !"), []).
Proof.
  intros [-> | ->]; unfold handle, app_3001, app_3002;
    cbn [dispatch route_method route_pattern route_handler method_eqb andb];
    destruct (path_matches "/" path); intros H; inversion H; reflexivity.
Qed.

Lemma get_has_no_effect_witness :
  root (failing_sdk "down") (Some (JObj [("text", JStr "ignored")])) []
  = (Returns (Sent 200 "Backend de traduction opérationnel !"), []).
Proof.
  apply (@get_has_no_effect String.eqb app_3001 (failing_sdk "down") "/"
           (Some (JObj [("text", JStr "ignored")]))).
  - left. reflexivity.
  - reflexivity.
Defined.

(** X17.  Every POST that an application takes is answered by one of the
    translate handlers, through [res.json]: no POST gets a text answer. *)
Theorem post_is_answered_by_a_translate_handler
  (path_matches : string -> string -> bool) (app : list Route) (sdk : SDK)
  (path : string) (req_body : value) (res : outcome Reply * trace) :
  app = app_3001 \/ app = app_3002 ->
  handle path_matches app sdk POST path req_body = Some res ->
  exists p : provider,
    res = json_reply (serve p sdk req_body) /\
    (app = app_3001 -> p <> DeepSeek).
Proof.
  intros [-> | ->]; unfold handle, app_3001, app_3002;
    cbn [dispatch route_method route_pattern route_handler method_eqb andb];
    destruct (path_matches "/api/translate/gemini" path);
    [ intros H; inversion H; exists Gemini; rewrite translate_route_run;
      split; [reflexivity | discriminate] | | 
      intros H; inversion H; exists Gemini; rewrite translate_route_run;
      split; [reflexivity | discriminate] | ];
    (destruct (path_matches "/api/translate/claude" path);
     [ intros H; inversion H; exists Claude; rewrite translate_route_run;
       split; [reflexivity | discriminate] | ]);
    (destruct (path_matches "/api/translate/openai" path);
     [ intros H; inversion H; exists OpenAI; rewrite translate_route_run;
       split; [reflexivity | discriminate] | ]);
    try discriminate.
  destruct (path_matches "/api/translate/deepseek" path); [ | discriminate].
  intros H; inversion H; exists DeepSeek; rewrite translate_route_run.
  split; [reflexivity | discriminate].
Qed.

Lemma post_is_answered_by_a_translate_handler_witness :
  exists p : provider,
    translate_route OpenAI (stub_sdk JStr) (Some (JObj [])) []
    = json_reply (serve p (stub_sdk JStr) (Some (JObj []))) /\
    (app_3001 = app_3001 -> p <> DeepSeek).
Proof.
  apply (@post_is_answered_by_a_translate_handler String.eqb app_3001
           (stub_sdk JStr) "/api/translate/openai" (Some (JObj []))).
  - left. reflexivity.
  - reflexivity.
Defined.
